(** * Strava dashboard: token handling and activity normalisation

    A shallow embedding of [src/strava_data.py] (class [StravaDataFetcher])
    and of [src/auth_script.py] (class [StravaAuthenticator] and the
    authorization script).

    Python values that reach this code are decoded JSON documents, so one
    inductive type [json] stands for them.  Floats are IEEE binary64, as in
    CPython, and are modelled by Rocq's primitive floats.  Files, the
    process environment, the [.env] file, the way the module was imported,
    the clock, the remote service and the console are fields of an explicit
    [world]; exceptions are values of [exn]. *)

From Stdlib Require Import ZArith Ascii.
From Stdlib Require Import Floats.PrimFloat Floats.FloatOps Floats.SpecFloat.
From stdpp Require Import base option list strings pretty gmap.

Set Warnings "-inexact-float,-register-all,-clear-no-such-hyp".
Set Default Proof Using "Type".

(** ** Python values *)

Inductive json : Type :=
| JNull
| JBool (b : bool)
| JInt (z : Z)
| JFloat (f : float)
| JStr (s : string)
| JList (l : list json)
| JObj (m : gmap string json).

(** ** Exceptions and results *)

Inductive exn : Type :=
| FileNotFoundError (path : string)
| JSONDecodeError
| KeyError (key : string)
| TypeError
| AttributeError
| ValueError
| OverflowError
| ZeroDivisionError
| ConnectionError (msg : string)
| InvalidJSONError
| Exception (msg : string)
| IndexError
| EOFError
| ImportError.

(** [ConnectionError] stands for the [requests.exceptions.RequestException]
    that a call of [requests.get] or [requests.post] raises when it does
    not return an answer; [InvalidJSONError] is the one [response.json()]
    raises.  These are what the first [except] clause of the fetch methods
    catches. *)
Definition is_RequestException (e : exn) : bool :=
  match e with
  | ConnectionError _ | InvalidJSONError => true
  | _ => false
  end.

Inductive result (A : Type) : Type :=
| Ok (a : A)
| Raise (e : exn).
Arguments Ok {A} a.
Arguments Raise {A} e.

Definition is_Ok {A} (r : result A) : bool :=
  match r with Ok _ => true | Raise _ => false end.

Module Res.
Definition bind {A B} (r : result A) (k : A → result B) : result B :=
  match r with
  | Ok a => k a
  | Raise e => Raise e
  end.
End Res.

Declare Scope res_scope.
Delimit Scope res_scope with res.
Notation "'let?' x := e 'in' k" := (Res.bind e (λ x, k))
  (at level 10, x name, e at level 100, k at level 200,
   format "'[v' 'let?'  x  :=  e  'in' '/' k ']'") : res_scope.

(** ** Dictionary access *)

(** [d.get(key, default)]: only dictionaries have the method. *)
Definition py_get (d : json) (key : string) (dflt : json) : result json :=
  match d with
  | JObj m => Ok (default dflt (m !! key))
  | _ => Raise AttributeError
  end.

(** [d[key]] with a string key. *)
Definition py_getitem (d : json) (key : string) : result json :=
  match d with
  | JObj m =>
      match m !! key with
      | Some v => Ok v
      | None => Raise (KeyError key)
      end
  | _ => Raise TypeError
  end.

(** Truth value of an object, as tested by [if not x]. *)
Definition py_bool (v : json) : bool :=
  match v with
  | JNull => false
  | JBool b => b
  | JInt z => negb (z =? 0)%Z
  | JFloat f => negb (PrimFloat.eqb f 0%float)
  | JStr s => negb (String.eqb s "")
  | JList l => match l with [] => false | _ => true end
  | JObj m => negb (bool_decide (m = ∅))
  end.

(** ** Numbers *)

Definition sf_of_Z (z : Z) : spec_float :=
  match z with
  | Z0 => S754_zero false
  | Zpos p => S754_finite false p 0
  | Zneg p => S754_finite true p 0
  end.

(** [float(z)] for an integer: the nearest binary64 value, ties to even;
    [OverflowError] when it is out of range. *)
Definition float_of_int (z : Z) : result float :=
  match binary_normalize prec emax z 0 false with
  | S754_infinity _ => Raise OverflowError
  | sf => Ok (SF2Prim sf)
  end.

(** [a / b] on two integers: the exact quotient rounded once. *)
Definition int_truediv (a b : Z) : result float :=
  if (b =? 0)%Z then Raise ZeroDivisionError
  else if (a =? 0)%Z then Ok (if (b <? 0)%Z then neg_zero else zero)
  else
    match SFdiv prec emax (sf_of_Z a) (sf_of_Z b) with
    | S754_infinity _ => Raise OverflowError
    | sf => Ok (SF2Prim sf)
    end.

(** [v / d] where [d] is an integer literal of the source. *)
Definition py_truediv (v : json) (d : Z) : result float :=
  match v with
  | JInt a => int_truediv a d
  | JBool b => int_truediv (Z.b2z b) d
  | JFloat f =>
      if (d =? 0)%Z then Raise ZeroDivisionError
      else (let? g := float_of_int d in Ok (f / g)%float)%res
  | _ => Raise TypeError
  end.

(** [v * c] where [c] is a float literal of the source. *)
Definition py_mul_float (v : json) (c : float) : result float :=
  match v with
  | JInt a => (let? f := float_of_int a in Ok (f * c)%float)%res
  | JBool b => (let? f := float_of_int (Z.b2z b) in Ok (f * c)%float)%res
  | JFloat f => Ok (f * c)%float
  | _ => Raise TypeError
  end.

(** The integer nearest to [n * 2^e], ties to even. *)
Definition nearest_int (n e : Z) : Z :=
  match e with
  | Zneg p =>
      let d := Z.pow_pos 2 p in
      let q := (n / d)%Z in
      let r := (n mod d)%Z in
      match (2 * r ?= d)%Z with
      | Lt => q
      | Gt => (q + 1)%Z
      | Eq => if Z.even q then q else (q + 1)%Z
      end
  | _ => (n * 2 ^ e)%Z
  end.

(** [round(x, 2)] on a float: the decimal with two fractional digits
    nearest to the exact value of [x] (ties to the even digit), read back
    as the nearest float.  Zeros, infinities and NaN are returned as is. *)
Definition round2 (x : float) : float :=
  match Prim2SF x with
  | S754_finite s m e =>
      let k := nearest_int (100 * Zpos m) e in
      match k with
      | Zpos p => SF2Prim (SFdiv prec emax (S754_finite s p 0) (S754_finite false 100 0))
      | _ => if s then neg_zero else zero
      end
  | _ => x
  end.

(** [round(v, 2)] on any object: integers are returned unchanged, as
    integers. *)
Definition py_round2 (v : json) : result json :=
  match v with
  | JInt a => Ok (JInt a)
  | JBool b => Ok (JInt (Z.b2z b))
  | JFloat f => Ok (JFloat (round2 f))
  | _ => Raise TypeError
  end.

(** [f >= z] for a float and an integer, decided on the exact values. *)
Definition float_ge_int (f : float) (z : Z) : bool :=
  match Prim2SF f with
  | S754_nan => false
  | S754_infinity s => negb s
  | S754_zero _ => (z <=? 0)%Z
  | S754_finite s m e =>
      let n := if s then Zneg m else Zpos m in
      match e with
      | Zneg p => (z * Z.pow_pos 2 p <=? n)%Z
      | _ => (z <=? n * 2 ^ e)%Z
      end
  end.

(** [f >= v] where [f] is a float. *)
Definition py_float_ge (f : float) (v : json) : result bool :=
  match v with
  | JInt z => Ok (float_ge_int f z)
  | JBool b => Ok (float_ge_int f (Z.b2z b))
  | JFloat g => Ok (PrimFloat.leb g f)
  | _ => Raise TypeError
  end.

(** ** Strings

    A Python [str] is modelled by its UTF-8 encoding. *)

(** [s.replace(c, new)] for a one-character ASCII [c]. *)
Fixpoint str_replace (c : ascii) (new s : string) : string :=
  match s with
  | EmptyString => EmptyString
  | String a rest =>
      if Ascii.eqb a c then new +:+ str_replace c new rest
      else String a (str_replace c new rest)
  end.

(** [v.replace(c, new)]: only strings have the method. *)
Definition py_replace (v : json) (c : ascii) (new : string) : result string :=
  match v with
  | JStr s => Ok (str_replace c new s)
  | _ => Raise AttributeError
  end.

(** The characters [str.isspace] accepts, by the length of their encoding:
    U+0009..U+000D, U+001C..U+0020; U+0085, U+00A0; U+1680, U+2000..U+200A,
    U+2028, U+2029, U+202F, U+205F, U+3000. *)
Definition space1 (a : N) : bool :=
  ((9 <=? a) && (a <=? 13) || (28 <=? a) && (a <=? 32))%N.

Definition space2 (a b : N) : bool :=
  ((a =? 194) && ((b =? 133) || (b =? 160)))%N.

Definition space3 (a b c : N) : bool :=
  ((a =? 225) && (b =? 154) && (c =? 128)
   || (a =? 226) && (b =? 128)
      && ((128 <=? c) && (c <=? 138) || (c =? 168) || (c =? 169) || (c =? 175))
   || (a =? 226) && (b =? 129) && (c =? 159)
   || (a =? 227) && (b =? 128) && (c =? 128))%N.

(** Drop leading whitespace.  With [fwd = false] the string is read
    backwards, so the bytes of a character arrive last byte first. *)
Fixpoint strip_front (fwd : bool) (s : string) : string :=
  match s with
  | EmptyString => s
  | String a s1 =>
      if space1 (N_of_ascii a) then strip_front fwd s1
      else
        match s1 with
        | EmptyString => s
        | String b s2 =>
            if (if fwd then space2 (N_of_ascii a) (N_of_ascii b)
                else space2 (N_of_ascii b) (N_of_ascii a))
            then strip_front fwd s2
            else
              match s2 with
              | EmptyString => s
              | String c s3 =>
                  if (if fwd
                      then space3 (N_of_ascii a) (N_of_ascii b) (N_of_ascii c)
                      else space3 (N_of_ascii c) (N_of_ascii b) (N_of_ascii a))
                  then strip_front fwd s3
                  else s
              end
        end
  end.

(** [s.strip()] *)
Definition str_strip (s : string) : string :=
  String.rev (strip_front false (String.rev (strip_front true s))).

(** ** Library functions

    The standard library and [requests] are not part of the repository.
    What the code needs from them is collected in one interface; every
    definition and theorem below is parametric in it.
    - [fromisoformat]: [datetime.fromisoformat], [None] for [ValueError];
    - [json_loads], [json_dumps]: the [json] module, [None] for a document
      that does not parse;
    - [repr_value]: the text an f-string inserts for a float, a list or a
      dictionary. *)

Record datetime : Type := {
  year : Z; month : Z; day : Z;
  hour : Z; minute : Z; second : Z; microsecond : Z;
  utcoffset : option Z
}.

Class PythonLib : Type := {
  fromisoformat : string → option datetime;
  json_loads : string → option json;
  json_dumps : json → string;
  repr_value : json → string
}.

(** The text an f-string inserts for [v]. *)
Definition py_str `{PythonLib} (v : json) : string :=
  match v with
  | JStr s => s
  | JNull => "None"
  | JBool true => "True"
  | JBool false => "False"
  | JInt z => pretty z
  | _ => repr_value v
  end.

Definition datetime_fromisoformat `{PythonLib} (s : string) : result datetime :=
  match fromisoformat s with
  | Some d => Ok d
  | None => Raise ValueError
  end.

(** ** The world *)

Inductive http_method : Type := GET | POST.

Record http_request : Type := {
  req_method : http_method;
  req_url : string;
  req_headers : gmap string string;
  req_params : gmap string json;
  req_data : gmap string json
}.

Record http_response : Type := {
  status_code : Z;
  text : string
}.

Inductive http_outcome : Type :=
| Responds (response : http_response)
| Unreachable (msg : string).

(** A line written by [print]; a formatted exception is kept as the
    exception itself.  [Prompt] is the text [input] writes before it
    reads. *)
Inductive console_line : Type :=
| Line (s : string)
| LineExn (prefix : string) (e : exn)
| Prompt (s : string).

(** What lies outside the objects of the program:
    - [files]: the content of each file, under the path it is opened by,
      two paths being taken to name two files;
    - [environ]: [os.environ];
    - [dotenv]: the variables that [python-dotenv] reads from the [.env]
      file it finds, none when it finds no such file;
    - [in_package]: whether the module [strava_data] was imported as a
      module of a package, with [auth_script] beside it, rather than as a
      top-level module, which is how [dash.py] imports it
      ([from strava_data import StravaDataFetcher]);
    - [clock]: the time [datetime.now()] reads;
    - [remote]: what comes of a call of [requests.get] or [requests.post];
    - [sent]: the calls of [requests.get] and [requests.post] made so far,
      in order, each with its arguments;
    - [stdout]: the lines printed so far. *)
Record world : Type := {
  files : gmap string string;
  environ : gmap string string;
  dotenv : gmap string string;
  in_package : bool;
  clock : float;
  remote : http_request → http_outcome;
  sent : list http_request;
  stdout : list console_line
}.

Definition with_files (f : gmap string string) (w : world) : world :=
  {| files := f; environ := environ w; dotenv := dotenv w;
     in_package := in_package w; clock := clock w; remote := remote w;
     sent := sent w; stdout := stdout w |}.

Definition with_environ (e : gmap string string) (w : world) : world :=
  {| files := files w; environ := e; dotenv := dotenv w;
     in_package := in_package w; clock := clock w; remote := remote w;
     sent := sent w; stdout := stdout w |}.

Definition with_sent (l : list http_request) (w : world) : world :=
  {| files := files w; environ := environ w; dotenv := dotenv w;
     in_package := in_package w; clock := clock w; remote := remote w;
     sent := l; stdout := stdout w |}.

Definition with_stdout (l : list console_line) (w : world) : world :=
  {| files := files w; environ := environ w; dotenv := dotenv w;
     in_package := in_package w; clock := clock w; remote := remote w;
     sent := sent w; stdout := l |}.

(** ** Computations with state and exceptions *)

Definition M (S A : Type) : Type := S → result A * S.

Module M.
Definition ret {S A} (a : A) : M S A := λ s, (Ok a, s).
Definition raise {S A} (e : exn) : M S A := λ s, (Raise e, s).
Definition bind {S A B} (m : M S A) (k : A → M S B) : M S B :=
  λ s, match m s with
       | (Ok a, s') => k a s'
       | (Raise e, s') => (Raise e, s')
       end.
Definition lift {S A} (r : result A) : M S A := λ s, (r, s).
Definition get {S} : M S S := λ s, (Ok s, s).
Definition modify {S} (f : S → S) : M S unit := λ s, (Ok tt, f s).
(** [try: body except Exception as e: handler e] *)
Definition try_except {S A} (body : M S A) (handler : exn → M S A) : M S A :=
  λ s, match body s with
       | (Ok a, s') => (Ok a, s')
       | (Raise e, s') => handler e s'
       end.
(** Run a computation on the world inside a method, where the state is
    the object together with the world. *)
Definition on_world {O A} (m : M world A) : M (O * world) A :=
  λ '(o, w), let '(r, w') := m w in (r, (o, w')).
Definition self {O} : M (O * world) O := λ '(o, w), (Ok o, (o, w)).
Definition set_self {O} (o : O) : M (O * world) unit := λ '(_, w), (Ok tt, (o, w)).
End M.

Declare Scope m_scope.
Delimit Scope m_scope with M.
Notation "'let!' x := e 'in' k" := (M.bind e (λ x, k))
  (at level 10, x name, e at level 100, k at level 200,
   format "'[v' 'let!'  x  :=  e  'in' '/' k ']'") : m_scope.
Notation "e ;; k" := (M.bind e (λ _, k))
  (at level 100, k at level 200, right associativity,
   format "'[v' e  ;; '/' k ']'") : m_scope.

(** ** Input and output *)

(** [json.load(open(path, 'r'))] *)
Definition json_load_file `{PythonLib} (path : string) : M world json :=
  λ w, match files w !! path with
       | None => (Raise (FileNotFoundError path), w)
       | Some content =>
           match json_loads content with
           | Some v => (Ok v, w)
           | None => (Raise JSONDecodeError, w)
           end
       end.

(** [json.dump(v, open(path, 'w'))]: the file is replaced as a whole. *)
Definition json_dump_file `{PythonLib} (v : json) (path : string) : M world unit :=
  M.modify (λ w, with_files (<[path := json_dumps v]> (files w)) w).

(** [load_dotenv()]: every variable of the [.env] file that the
    environment does not have yet is added to it; a variable that is
    already set keeps its value. *)
Definition load_dotenv : M world unit :=
  M.modify (λ w, with_environ (environ w ∪ dotenv w) w).

(** [os.getenv(name)] *)
Definition os_getenv (name : string) : M world (option string) :=
  λ w, (Ok (environ w !! name), w).

(** [datetime.now().timestamp()] *)
Definition datetime_now_timestamp : M world float :=
  λ w, (Ok (clock w), w).

Definition console_print (l : console_line) : M world unit :=
  M.modify (λ w, with_stdout (stdout w ++ [l]) w).

(** [requests.get] and [requests.post]: the call is made, and recorded
    in [sent] with its arguments; it returns the answer of the service,
    or it raises a [RequestException].  [Unreachable] covers both ways in
    which it raises one: [requests] refuses the request before anything
    is on the wire (a header value with a line break in it), or the
    transport fails.  Exceptions of other classes that the library may
    raise are not modelled. *)
Definition requests_send (request : http_request) : M world http_response :=
  λ w, let w' := with_sent (sent w ++ [request]) w in
       match remote w request with
       | Responds response => (Ok response, w')
       | Unreachable msg => (Raise (ConnectionError msg), w')
       end.

(** [response.json()] *)
Definition response_json `{PythonLib} (response : http_response) : result json :=
  match json_loads (text response) with
  | Some v => Ok v
  | None => Raise InvalidJSONError
  end.

(** ** [auth_script.py]: [StravaAuthenticator] *)

Module StravaAuthenticator.
Record t : Type := {
  client_id : string;
  client_secret : string;
  redirect_uri : string
}.

Definition token_url : string := "https://www.strava.com/oauth/token".

(** An environment variable counts when it is set and not empty. *)
Definition truthy (o : option string) : bool :=
  match o with
  | Some s => negb (String.eqb s "")
  | None => false
  end.

Definition __init__ : M world t :=
  (load_dotenv ;;
   let! client_id := os_getenv "STRAVA_CLIENT_ID" in
   let! client_secret := os_getenv "STRAVA_CLIENT_SECRET" in
   let! redirect_uri := os_getenv "STRAVA_REDIRECT_URI" in
   if truthy client_id && truthy client_secret && truthy redirect_uri
   then M.ret {| client_id := default "" client_id;
                 client_secret := default "" client_secret;
                 redirect_uri := default "" redirect_uri |}
   else M.raise ValueError)%M.

Section Methods.
Context `{PythonLib}.

(** The form fields [exchange_token] posts. *)
Definition exchange_data (self : t) (code : json) : gmap string json :=
  {[ "client_id" := JStr (client_id self);
     "client_secret" := JStr (client_secret self);
     "code" := code;
     "grant_type" := JStr "authorization_code" ]}.

Definition exchange_request (self : t) (code : json) : http_request :=
  {| req_method := POST; req_url := token_url; req_headers := ∅;
     req_params := ∅; req_data := exchange_data self code |}.

Definition exchange_token (self : t) (code : json) : M world json :=
  (let! response := requests_send (exchange_request self code) in
   if (status_code response =? 200)%Z
   then M.lift (response_json response)
   else M.raise (Exception ("Token exchange failed: " +:+ text response)))%M.
End Methods.
End StravaAuthenticator.

(** ** [strava_data.py]: [StravaDataFetcher] *)

(** One row of the data frame [process_activities] returns. *)
Module Activity.
Record t : Type := {
  name : json;
  type : json;
  start_date : datetime;
  distance_km : float;
  moving_time_min : float;
  total_elevation_gain : json;
  average_speed_kmh : float;
  average_heartrate : json;
  max_heartrate : json
}.
End Activity.

(** The dictionary [get_athlete_profile] returns. *)
Module Athlete.
Record t : Type := {
  name : string;
  username : json;
  profile_image : json;
  total_followers : json;
  total_friends : json
}.
End Athlete.

Module StravaDataFetcher.
Record t : Type := { tokens : json }.

Definition default_tokens_file : string := "strava_tokens.json".
Definition activities_url : string := "https://www.strava.com/api/v3/athlete/activities".
Definition athlete_url : string := "https://www.strava.com/api/v3/athlete".
Definition no_activities : string := "Warning: No activities returned from Strava API".

Section Methods.
Context `{PythonLib}.

(** [from .auth_script import StravaAuthenticator]: a relative import,
    which raises [ImportError] in a module that was not imported as part
    of a package. *)
Definition import_auth_script : M world unit :=
  λ w, if in_package w then (Ok tt, w) else (Raise ImportError, w).

Definition _refresh_token : M (t * world) unit :=
  (M.on_world import_auth_script ;;
   let! authenticator := M.on_world StravaAuthenticator.__init__ in
   let! self := M.self in
   let! refresh_token := M.lift (py_getitem (tokens self) "refresh_token") in
   let! new_tokens :=
     M.on_world (StravaAuthenticator.exchange_token authenticator refresh_token) in
   let! access_token := M.lift (py_getitem new_tokens "access_token") in
   let! refresh_token' := M.lift (py_getitem new_tokens "refresh_token") in
   let! expires_at := M.lift (py_getitem new_tokens "expires_at") in
   M.set_self {| tokens := JObj {[ "access_token" := access_token;
                                   "refresh_token" := refresh_token';
                                   "expires_at" := expires_at ]} |} ;;
   let! self := M.self in
   M.on_world (json_dump_file (tokens self) "strava_tokens.json"))%M.

Definition __init__ (tokens_file : string) : M world t :=
  (let! loaded := json_load_file tokens_file in
   let self := {| tokens := loaded |} in
   let! now := datetime_now_timestamp in
   let! expires_at := M.lift (py_getitem (tokens self) "expires_at") in
   let! expired := M.lift (py_float_ge now expires_at) in
   if expired : bool
   then λ w, match _refresh_token (self, w) with
             | (Ok _, (self', w')) => (Ok self', w')
             | (Raise e, (_, w')) => (Raise e, w')
             end
   else M.ret self)%M.

Definition bearer (self : t) : result (gmap string string) :=
  (let? access_token := py_getitem (tokens self) "access_token" in
   Ok {[ "Authorization" := "Bearer " +:+ py_str access_token ]})%res.

Definition http_error (response : http_response) : exn :=
  Exception ("HTTP Error: " +:+ pretty (status_code response)
             +:+ " - " +:+ text response).

(** The two [except] clauses shared by the fetch methods: print and
    re-raise. *)
Definition report {A} (what : string) (e : exn) : M world A :=
  (if is_RequestException e
   then console_print (LineExn "Network Error: " e) ;; M.raise e
   else console_print (LineExn ("Unexpected error fetching " +:+ what +:+ ": ") e) ;;
        M.raise e)%M.

Definition activities_request (headers : gmap string string) (limit : json)
  : http_request :=
  {| req_method := GET; req_url := activities_url; req_headers := headers;
     req_params := {[ "per_page" := limit ]}; req_data := ∅ |}.

Definition athlete_request (headers : gmap string string) : http_request :=
  {| req_method := GET; req_url := athlete_url; req_headers := headers;
     req_params := ∅; req_data := ∅ |}.

Definition get_activities (self : t) (limit : json) : M world json :=
  (let! headers := M.lift (bearer self) in
   M.try_except
     (let! response := requests_send (activities_request headers limit) in
      if negb (status_code response =? 200)%Z
      then M.raise (http_error response)
      else
        let! activities := M.lift (response_json response) in
        (if negb (py_bool activities)
         then console_print (Line no_activities)
         else M.ret tt) ;;
        M.ret activities)
     (report "activities"))%M.

(** The dictionary built for one activity; its entries are evaluated
    in the order they are written. *)
Definition process_activity (activity : json) : result Activity.t :=
  (let? name := py_get activity "name" (JStr "Unnamed Activity") in
   let? type := py_get activity "type" (JStr "Unknown") in
   let? raw_date := py_get activity "start_date" (JStr "") in
   let? iso_date := py_replace raw_date "Z" "+00:00" in
   let? start_date := datetime_fromisoformat iso_date in
   let? distance := py_get activity "distance" (JInt 0) in
   let? distance_km := py_truediv distance 1000 in
   let? moving_time := py_get activity "moving_time" (JInt 0) in
   let? moving_time_min := py_truediv moving_time 60 in
   let? elevation := py_get activity "total_elevation_gain" (JInt 0) in
   let? total_elevation_gain := py_round2 elevation in
   let? average_speed := py_get activity "average_speed" (JInt 0) in
   let? average_speed_kmh := py_mul_float average_speed 3.6 in
   let? average_heartrate := py_get activity "average_heartrate" JNull in
   let? max_heartrate := py_get activity "max_heartrate" JNull in
   Ok {| Activity.name := name;
         Activity.type := type;
         Activity.start_date := start_date;
         Activity.distance_km := round2 distance_km;
         Activity.moving_time_min := round2 moving_time_min;
         Activity.total_elevation_gain := total_elevation_gain;
         Activity.average_speed_kmh := round2 average_speed_kmh;
         Activity.average_heartrate := average_heartrate;
         Activity.max_heartrate := max_heartrate |})%res.

(** The [for] loop: [processed_data] grows by one row per activity. *)
Fixpoint process_loop (processed_data : list Activity.t) (activities : list json)
  : result (list Activity.t) :=
  match activities with
  | [] => Ok processed_data
  | activity :: rest =>
      (let? row := process_activity activity in
       process_loop (processed_data ++ [row]) rest)%res
  end.

(** What is modelled is [processed_data], the list of rows handed to
    [pd.DataFrame].  The data frame stores these rows by column, and
    [pandas] may convert the cells of a column to one type (an integer
    beside floats becomes a float, [None] beside numbers becomes NaN);
    this conversion is not modelled. *)
Definition process_activities (self : t) (activities : list json)
  : result (list Activity.t) :=
  process_loop [] activities.

Definition athlete_of (athlete_profile : json) : result Athlete.t :=
  (let? firstname := py_get athlete_profile "firstname" (JStr "") in
   let? lastname := py_get athlete_profile "lastname" (JStr "") in
   let? username := py_get athlete_profile "username" JNull in
   let? profile := py_get athlete_profile "profile" JNull in
   let? follower_count := py_get athlete_profile "follower_count" JNull in
   let? friend_count := py_get athlete_profile "friend_count" JNull in
   Ok {| Athlete.name := str_strip (py_str firstname +:+ " " +:+ py_str lastname);
         Athlete.username := username;
         Athlete.profile_image := profile;
         Athlete.total_followers := follower_count;
         Athlete.total_friends := friend_count |})%res.

Definition get_athlete_profile (self : t) : M world Athlete.t :=
  (let! headers := M.lift (bearer self) in
   M.try_except
     (let! response := requests_send (athlete_request headers) in
      if negb (status_code response =? 200)%Z
      then M.raise (http_error response)
      else
        let! athlete_profile := M.lift (response_json response) in
        M.lift (athlete_of athlete_profile))
     (report "athlete profile"))%M.
End Methods.
End StravaDataFetcher.

(** ** A concrete library

    An executable instance of [PythonLib], used to run the definitions on
    examples and to follow a token set through the credential file.  Its
    JSON writer and reader follow [json.dump] and [json.load] as the code
    calls them, with their default arguments: members are separated by
    [", "], a key from its value by [": "], a string is written in ASCII
    with the escapes of [json.dumps], an integer in decimal.  Three things
    differ from CPython: the members of an object are written in the order
    of the map, where CPython keeps the order of insertion; a float is
    written with all its decimal digits, where CPython writes the shortest
    text that reads back as the same float; and [repr_value] writes JSON
    text.  The date parser
    reads [YYYY-MM-DD[*HH[:MM[:SS[.fff[fff]]]][+HH:MM[:SS[.ffffff]]]]], the
    format [datetime.fromisoformat] accepts since Python 3.7. *)

Module Ref.
Definition dquote : ascii := "034"%char.

Definition digit (a : ascii) : option Z :=
  let n := N_of_ascii a in
  if ((48 <=? n) && (n <=? 57))%N then Some (Z.of_N n - 48)%Z else None.

(** Read a run of decimal digits: its value, its length, and the rest. *)
Fixpoint take_digits (s : string) (acc : Z) (count : nat) : Z * nat * string :=
  match s with
  | String a rest =>
      match digit a with
      | Some d => take_digits rest (10 * acc + d)%Z (S count)
      | None => (acc, count, s)
      end
  | EmptyString => (acc, count, s)
  end.

(** Exactly [n] digits, and nothing else. *)
Definition digits_exact (n : nat) (s : string) : option Z :=
  let '(v, count, rest) := take_digits s 0 0 in
  if bool_decide (count = n ∧ rest = "") then Some v else None.

(** *** Dates *)

Definition is_leap (y : Z) : bool :=
  ((y mod 4 =? 0) && (negb (y mod 100 =? 0) || (y mod 400 =? 0)))%Z.

Definition days_in_month (y m : Z) : Z :=
  if (m =? 2)%Z then (if is_leap y then 29 else 28)
  else if bool_decide (m ∈ [4; 6; 9; 11]%Z) then 30 else 31.

(** [HH[:MM[:SS[.fff[fff]]]]] *)
Definition parse_hh_mm_ss_ff (s : string) : option (Z * Z * Z * Z) :=
  hh ← digits_exact 2 (String.substring 0 2 s);
  if (String.length s =? 2)%nat then Some (hh, 0, 0, 0)%Z else
  if negb (String.eqb (String.substring 2 1 s) ":") then None else
  mm ← digits_exact 2 (String.substring 3 2 s);
  if (String.length s =? 5)%nat then Some (hh, mm, 0, 0)%Z else
  if negb (String.eqb (String.substring 5 1 s) ":") then None else
  ss ← digits_exact 2 (String.substring 6 2 s);
  if (String.length s =? 8)%nat then Some (hh, mm, ss, 0)%Z else
  if negb (String.eqb (String.substring 8 1 s) ".") then None else
  let frac := String.substring 9 (String.length s - 9) s in
  match String.length frac with
  | 3%nat => ff ← digits_exact 3 frac; Some (hh, mm, ss, ff * 1000)%Z
  | 6%nat => ff ← digits_exact 6 frac; Some (hh, mm, ss, ff)%Z
  | _ => None
  end.

(** Position of the sign that starts the offset: the first [-], or else
    the first [+]. *)
Definition tz_pos (s : string) : option nat :=
  match String.index 0 "-" s with
  | Some i => Some i
  | None => String.index 0 "+" s
  end.

Definition microseconds (c : Z * Z * Z * Z) : Z :=
  let '(hh, mm, ss, ff) := c in (((hh * 60 + mm) * 60 + ss) * 1000000 + ff)%Z.

Definition parse_offset (sign : string) (s : string) : option Z :=
  if negb (bool_decide (String.length s ∈ [5; 8; 15]%nat)) then None else
  c ← parse_hh_mm_ss_ff s;
  let us := microseconds c in
  if (us <? 86400000000)%Z
  then Some (if String.eqb sign "-" then (- us)%Z else us)
  else None.

Definition parse_time (s : string) : option (Z * Z * Z * Z * option Z) :=
  if (String.length s <? 2)%nat then None else
  '(timestr, tz) ←
    match tz_pos s with
    | Some i =>
        off ← parse_offset (String.substring i 1 s)
                           (String.substring (S i) (String.length s - S i) s);
        Some (String.substring 0 i s, Some off)
    | None => Some (s, None)
    end;
  '(hh, mm, ss, ff) ← parse_hh_mm_ss_ff timestr;
  if ((hh <? 24) && (mm <? 60) && (ss <? 60))%Z
  then Some (hh, mm, ss, ff, tz) else None.

Definition iso_parse (s : string) : option datetime :=
  if (String.length s <? 10)%nat then None else
  y ← digits_exact 4 (String.substring 0 4 s);
  if negb (String.eqb (String.substring 4 1 s) "-") then None else
  m ← digits_exact 2 (String.substring 5 2 s);
  if negb (String.eqb (String.substring 7 1 s) "-") then None else
  d ← digits_exact 2 (String.substring 8 2 s);
  if negb ((1 <=? y) && (1 <=? m) && (m <=? 12)
           && (1 <=? d) && (d <=? days_in_month y m))%Z then None else
  let tstr := String.substring 11 (String.length s - 11) s in
  if String.eqb tstr "" then
    Some {| year := y; month := m; day := d; hour := 0; minute := 0;
            second := 0; microsecond := 0; utcoffset := None |}
  else
    '(hh, mm, ss, ff, tz) ← parse_time tstr;
    Some {| year := y; month := m; day := d; hour := hh; minute := mm;
            second := ss; microsecond := ff; utcoffset := tz |}.

(** *** Writing JSON *)

Definition hex_digit (n : N) : ascii :=
  if (n <? 10)%N then ascii_of_N (48 + n)%N else ascii_of_N (87 + n)%N.

(** [\uXXXX] *)
Definition hex4_text (n : N) : string :=
  "\u" +:+ String (hex_digit (n / 4096)%N)
            (String (hex_digit (n / 256 mod 16)%N)
               (String (hex_digit (n / 16 mod 16)%N)
                  (String (hex_digit (n mod 16)%N) ""))).

(** A character of one byte: the printable ones are written as they
    are. *)
Definition escape_char (a : ascii) : string :=
  let n := N_of_ascii a in
  if Ascii.eqb a dquote then String "\" (String dquote "")
  else if Ascii.eqb a "\" then "\\"
  else if (n =? 8)%N then "\b"
  else if (n =? 9)%N then "\t"
  else if (n =? 10)%N then "\n"
  else if (n =? 12)%N then "\f"
  else if (n =? 13)%N then "\r"
  else if ((n <? 32) || (n =? 127))%N then hex4_text n
  else String a "".

(** A character outside ASCII: one escape, or a surrogate pair. *)
Definition escape_code_point (cp : N) : string :=
  if (cp <? 65536)%N then hex4_text cp
  else hex4_text (55296 + (cp - 65536) / 1024)%N
       +:+ hex4_text (56320 + (cp - 65536) mod 1024)%N.

(** The UTF-8 encoding of a character. *)
Definition utf8 (cp : N) : string :=
  let cont (n : N) := ascii_of_N (128 + n mod 64)%N in
  if (cp <? 128)%N then String (ascii_of_N cp) ""
  else if (cp <? 2048)%N then
    String (ascii_of_N (192 + cp / 64)%N) (String (cont cp) "")
  else if (cp <? 65536)%N then
    String (ascii_of_N (224 + cp / 4096)%N)
      (String (cont (cp / 64)%N) (String (cont cp) ""))
  else
    String (ascii_of_N (240 + cp / 262144)%N)
      (String (cont (cp / 4096)%N) (String (cont (cp / 64)%N) (String (cont cp) ""))).

(** The character that two, three or four bytes encode, when they are
    the encoding of one. *)
Definition decode2 (a b : ascii) : option N :=
  let cp := ((N_of_ascii a - 192) * 64 + (N_of_ascii b - 128))%N in
  if String.eqb (utf8 cp) (String a (String b "")) then Some cp else None.

Definition decode3 (a b c : ascii) : option N :=
  let cp := ((N_of_ascii a - 224) * 4096 + (N_of_ascii b - 128) * 64
             + (N_of_ascii c - 128))%N in
  if String.eqb (utf8 cp) (String a (String b (String c "")))
     && negb ((55296 <=? cp) && (cp <=? 57343))%N
  then Some cp else None.

Definition decode4 (a b c d : ascii) : option N :=
  let cp := ((N_of_ascii a - 240) * 262144 + (N_of_ascii b - 128) * 4096
             + (N_of_ascii c - 128) * 64 + (N_of_ascii d - 128))%N in
  if String.eqb (utf8 cp) (String a (String b (String c (String d ""))))
     && (cp <? 1114112)%N
  then Some cp else None.

(** The characters of a string as [json.dumps] writes them between the
    quotes: nothing but ASCII.  Bytes that do not encode a character, which
    no Python string has, are kept as they are. *)
Fixpoint escape (s : string) : string :=
  match s with
  | EmptyString => EmptyString
  | String a s1 =>
      if (N_of_ascii a <? 128)%N then escape_char a +:+ escape s1
      else
        match s1 with
        | String b s2 =>
            match decode2 a b with
            | Some cp => escape_code_point cp +:+ escape s2
            | None =>
                match s2 with
                | String c s3 =>
                    match decode3 a b c with
                    | Some cp => escape_code_point cp +:+ escape s3
                    | None =>
                        match s3 with
                        | String d s4 =>
                            match decode4 a b c d with
                            | Some cp => escape_code_point cp +:+ escape s4
                            | None => String a (escape s1)
                            end
                        | EmptyString => String a (escape s1)
                        end
                    end
                | EmptyString => String a (escape s1)
                end
            end
        | EmptyString => String a (escape s1)
        end
  end.

Definition quote (s : string) : string :=
  String dquote (escape s +:+ String dquote "").

Fixpoint zeros (n : nat) : string :=
  match n with
  | O => ""
  | S n' => String "0" (zeros n')
  end.

(** The exact decimal expansion of a float. *)
Definition float_text (f : float) : string :=
  match Prim2SF f with
  | S754_nan => "NaN"
  | S754_infinity s => if s then "-Infinity" else "Infinity"
  | S754_zero s => if s then "-0.0" else "0.0"
  | S754_finite s m e =>
      (if s then "-" else "") +:+
      match e with
      | Zneg p =>
          let k := Pos.to_nat p in
          let digits := pretty (Zpos m * 5 ^ Zpos p)%Z in
          let padded := zeros (S k - String.length digits) +:+ digits in
          let n := (String.length padded - k)%nat in
          String.substring 0 n padded +:+ "." +:+ String.substring n k padded
      | _ => pretty (Zpos m * 2 ^ e)%Z +:+ ".0"
      end
  end.

Fixpoint dumps (v : json) : string :=
  match v with
  | JNull => "null"
  | JBool b => if b then "true" else "false"
  | JInt z => pretty z
  | JFloat f => float_text f
  | JStr s => quote s
  | JList l => "[" +:+ String.concat ", " (map dumps l) +:+ "]"
  | JObj m =>
      "{" +:+ String.concat ", "
                (map (λ kv, quote (fst kv) +:+ ": " +:+ snd kv)
                     (map_to_list (dumps <$> m)))
      +:+ "}"
  end.

(** *** Reading JSON *)

Definition is_ws (a : ascii) : bool :=
  let n := N_of_ascii a in ((n =? 32) || (n =? 9) || (n =? 10) || (n =? 13))%N.

Fixpoint skip_ws (s : string) : string :=
  match s with
  | String a rest => if is_ws a then skip_ws rest else s
  | EmptyString => s
  end.

Definition hex_value (a : ascii) : option N :=
  let n := N_of_ascii a in
  if ((48 <=? n) && (n <=? 57))%N then Some (n - 48)%N
  else if ((97 <=? n) && (n <=? 102))%N then Some (n - 87)%N
  else if ((65 <=? n) && (n <=? 70))%N then Some (n - 55)%N
  else None.

Definition hex4 (a b c d : ascii) : option N :=
  x ← hex_value a; y ← hex_value b; z ← hex_value c; w ← hex_value d;
  Some (((x * 16 + y) * 16 + z) * 16 + w)%N.

Definition simple_escape (a : ascii) : option ascii :=
  if Ascii.eqb a dquote then Some dquote
  else if Ascii.eqb a "\" then Some "\"%char
  else if Ascii.eqb a "/" then Some "/"%char
  else if Ascii.eqb a "b" then Some (ascii_of_N 8)
  else if Ascii.eqb a "f" then Some (ascii_of_N 12)
  else if Ascii.eqb a "n" then Some (ascii_of_N 10)
  else if Ascii.eqb a "r" then Some (ascii_of_N 13)
  else if Ascii.eqb a "t" then Some (ascii_of_N 9)
  else None.

(** The low half of a surrogate pair, when [s] starts with one. *)
Definition low_surrogate (s : string) : option (N * string) :=
  match s with
  | String b (String u (String a1 (String a2 (String a3 (String a4 rest))))) =>
      if Ascii.eqb b "\" && Ascii.eqb u "u" then
        lo ← hex4 a1 a2 a3 a4;
        if ((56320 <=? lo) && (lo <=? 57343))%N then Some (lo, rest) else None
      else None
  | _ => None
  end.

(** The characters of a string literal, after its opening quote. *)
Fixpoint read_string (fuel : nat) (s acc : string) : option (string * string) :=
  match fuel, s with
  | S fuel', String a rest =>
      if Ascii.eqb a dquote then Some (acc, rest)
      else if Ascii.eqb a "\" then
        match rest with
        | String b rest' =>
            if Ascii.eqb b "u" then
              match rest' with
              | String a1 (String a2 (String a3 (String a4 tail))) =>
                  hi ← hex4 a1 a2 a3 a4;
                  match (if ((55296 <=? hi) && (hi <=? 56319))%N
                         then low_surrogate tail else None) with
                  | Some (lo, tail') =>
                      read_string fuel' tail'
                        (acc +:+ utf8 (65536 + (hi - 55296) * 1024 + (lo - 56320))%N)
                  | None => read_string fuel' tail (acc +:+ utf8 hi)
                  end
              | _ => None
              end
            else
              c ← simple_escape b;
              read_string fuel' rest' (acc +:+ String c "")
        | EmptyString => None
        end
      else if (N_of_ascii a <? 32)%N then None
      else read_string fuel' rest (acc +:+ String a "")
  | _, _ => None
  end.

Definition float_of_decimal (neg : bool) (n e10 : Z) : float :=
  match n with
  | Zpos p =>
      SF2Prim
        (if (0 <=? e10)%Z
         then binary_normalize prec emax (if neg then - (n * 10 ^ e10) else n * 10 ^ e10) 0 false
         else SFdiv prec emax (S754_finite neg p 0)
                (S754_finite false (Z.to_pos (10 ^ (- e10))) 0))
  | _ => if neg then neg_zero else zero
  end.

Definition read_exponent (s : string) : option (Z * string) :=
  match s with
  | String a rest =>
      if Ascii.eqb a "e" || Ascii.eqb a "E" then
        let '(neg, rest') :=
          match rest with
          | String sg r =>
              if Ascii.eqb sg "-" then (true, r)
              else if Ascii.eqb sg "+" then (false, r) else (false, rest)
          | EmptyString => (false, rest)
          end in
        let '(v, count, rest'') := take_digits rest' 0 0 in
        if (count =? 0)%nat then None
        else Some (if neg then (- v)%Z else v, rest'')
      else None
  | EmptyString => None
  end.

(** [-? int frac? exp?]; an integer part starts with [0] only when it
    is [0]. *)
Definition read_number (s : string) : option (json * string) :=
  let '(neg, s1) :=
    match s with
    | String a rest => if Ascii.eqb a "-" then (true, rest) else (false, s)
    | EmptyString => (false, s)
    end in
  '(i, s2) ←
    match s1 with
    | String a rest =>
        if Ascii.eqb a "0" then Some (0%Z, rest)
        else let '(v, count, rest') := take_digits s1 0 0 in
             if (count =? 0)%nat then None else Some (v, rest')
    | EmptyString => None
    end;
  let '(f, nf, s3) :=
    match s2 with
    | String a rest =>
        if Ascii.eqb a "." then
          let '(v, count, rest') := take_digits rest 0 0 in
          if (count =? 0)%nat then (0%Z, O, s2) else (v, count, rest')
        else (0%Z, O, s2)
    | EmptyString => (0%Z, O, s2)
    end in
  match read_exponent s3 with
  | Some (e, s4) =>
      Some (JFloat (float_of_decimal neg (i * 10 ^ Z.of_nat nf + f)
                                     (e - Z.of_nat nf)), s4)
  | None =>
      if (nf =? 0)%nat then Some (JInt (if neg then - i else i), s3)
      else Some (JFloat (float_of_decimal neg (i * 10 ^ Z.of_nat nf + f)
                                          (- Z.of_nat nf)), s3)
  end.

Definition read_word (word : string) (v : json) (s : string) : option (json * string) :=
  if String.prefix word s
  then Some (v, String.substring (String.length word)
                  (String.length s - String.length word) s)
  else None.

Fixpoint read_value (fuel : nat) (s : string) : option (json * string) :=
  match fuel with
  | O => None
  | S fuel' =>
      match skip_ws s with
      | EmptyString => None
      | String a rest as s' =>
          if Ascii.eqb a dquote then
            '(str, rest') ← read_string (String.length rest) rest "";
            Some (JStr str, rest')
          else if Ascii.eqb a "[" then
            match skip_ws rest with
            | String b rest' as items =>
                if Ascii.eqb b "]" then Some (JList [], rest')
                else read_items fuel' items []
            | EmptyString => None
            end
          else if Ascii.eqb a "{" then
            match skip_ws rest with
            | String b rest' as members =>
                if Ascii.eqb b "}" then Some (JObj ∅, rest')
                else read_members fuel' members ∅
            | EmptyString => None
            end
          else if Ascii.eqb a "n" then read_word "null" JNull s'
          else if Ascii.eqb a "t" then read_word "true" (JBool true) s'
          else if Ascii.eqb a "f" then read_word "false" (JBool false) s'
          else if Ascii.eqb a "N" then read_word "NaN" (JFloat nan) s'
          else if Ascii.eqb a "I" then read_word "Infinity" (JFloat infinity) s'
          else if String.prefix "-I" s'
               then read_word "-Infinity" (JFloat neg_infinity) s'
          else read_number s'
      end
  end
with read_items (fuel : nat) (s : string) (acc : list json) : option (json * string) :=
  match fuel with
  | O => None
  | S fuel' =>
      '(v, rest) ← read_value fuel' s;
      match skip_ws rest with
      | String a rest' =>
          if Ascii.eqb a "," then read_items fuel' rest' (acc ++ [v])
          else if Ascii.eqb a "]" then Some (JList (acc ++ [v]), rest')
          else None
      | EmptyString => None
      end
  end
with read_members (fuel : nat) (s : string) (acc : gmap string json)
  : option (json * string) :=
  match fuel with
  | O => None
  | S fuel' =>
      match skip_ws s with
      | String q rest =>
          if Ascii.eqb q dquote then
            '(key, rest1) ← read_string (String.length rest) rest "";
            match skip_ws rest1 with
            | String c rest2 =>
                if Ascii.eqb c ":" then
                  '(v, rest3) ← read_value fuel' rest2;
                  match skip_ws rest3 with
                  | String a rest4 =>
                      if Ascii.eqb a "," then read_members fuel' rest4 (<[key := v]> acc)
                      else if Ascii.eqb a "}" then Some (JObj (<[key := v]> acc), rest4)
                      else None
                  | EmptyString => None
                  end
                else None
            | EmptyString => None
            end
          else None
      | EmptyString => None
      end
  end.

Definition loads (s : string) : option json :=
  '(v, rest) ← read_value (2 * String.length s + 2) s;
  if String.eqb (skip_ws rest) "" then Some v else None.

#[export] Instance lib : PythonLib := {|
  fromisoformat := iso_parse;
  json_loads := loads;
  json_dumps := dumps;
  repr_value := dumps
|}.
End Ref.

(** * Properties *)

(** ** Vocabulary of the statements *)

(** The fields of a raw activity that have a default. *)
Definition optional_fields : list string :=
  ["name"; "type"; "distance"; "moving_time"; "total_elevation_gain";
   "average_speed"; "average_heartrate"; "max_heartrate"].

(** A raw activity that carries a start date reading as [d] and none of
    the optional fields. *)
Definition bare_activity `{PythonLib} (activity : json) (d : datetime) : Prop :=
  ∃ (m : gmap string json) (s : string),
    activity = JObj m
    ∧ m !! "start_date" = Some (JStr s)
    ∧ fromisoformat (str_replace "Z" "+00:00" s) = Some d
    ∧ ∀ k, k ∈ optional_fields → m !! k = None.

(** The row of documented defaults. *)
Definition default_row (d : datetime) : Activity.t :=
  {| Activity.name := JStr "Unnamed Activity";
     Activity.type := JStr "Unknown";
     Activity.start_date := d;
     Activity.distance_km := 0;
     Activity.moving_time_min := 0;
     Activity.total_elevation_gain := JInt 0;
     Activity.average_speed_kmh := 0;
     Activity.average_heartrate := JNull;
     Activity.max_heartrate := JNull |}.

(** ** [auth_script.py]: the authorization script

    The script talks to the user: it opens a browser and reads a line from
    the keyboard.  These two are the [terminal]; a computation of the
    script runs on the terminal together with the world. *)

Record terminal : Type := {
  stdin : list string;
  opened : list string
}.

(** [s.split(sep)] for a separator that is not empty: the first piece and
    the pieces after it.  [skip] counts the characters of a separator just
    found that are still to be passed over. *)
Fixpoint split_go (sep : string) (skip : nat) (s : string) : string * list string :=
  match s with
  | EmptyString => (EmptyString, [])
  | String a rest =>
      match skip with
      | S k => split_go sep k rest
      | O =>
          if String.prefix sep s
          then (EmptyString,
                let '(piece, pieces) := split_go sep (String.length sep - 1) rest in
                piece :: pieces)
          else let '(piece, pieces) := split_go sep O rest in
               (String a piece, pieces)
      end
  end.

Definition str_split (sep s : string) : list string :=
  let '(piece, pieces) := split_go sep O s in piece :: pieces.

(** [l[i]] on a list *)
Definition py_index {A} (l : list A) (i : nat) : result A :=
  match l !! i with
  | Some x => Ok x
  | None => Raise IndexError
  end.

(** [url.split("code=")[1].split("&")[0]] *)
Definition code_of (url : string) : result string :=
  (let? tail := py_index (str_split "code=" url) 1 in
   py_index (str_split "&" tail) 0)%res.

Definition newline : string := String "010" EmptyString.

Module Script.
Import StravaAuthenticator.

Definition get_authorization_url (self : t) : string :=
  "https://www.strava.com/oauth/authorize"
  +:+ "?client_id=" +:+ client_id self
  +:+ "&redirect_uri=" +:+ redirect_uri self
  +:+ "&response_type=code"
  +:+ "&scope=activity:read_all".

(** [webbrowser.open(url)] *)
Definition webbrowser_open (url : string) : M (terminal * world) unit :=
  λ '(tty, w), (Ok tt, ({| stdin := stdin tty; opened := opened tty ++ [url] |}, w)).

(** [input(prompt)]: the prompt is written, then a line is read;
    [EOFError] when there is none. *)
Definition input (prompt : string) : M (terminal * world) string :=
  (M.on_world (console_print (Prompt prompt)) ;;
   λ '(tty, w), match stdin tty with
                | line :: rest =>
                    (Ok line, ({| stdin := rest; opened := opened tty |}, w))
                | [] => (Raise EOFError, (tty, w))
                end)%M.

Definition print (s : string) : M (terminal * world) unit :=
  M.on_world (console_print (Line s)).

Section Methods.
Context `{PythonLib}.

Definition authenticate (self : t) : M (terminal * world) json :=
  (let auth_url := get_authorization_url self in
   webbrowser_open auth_url ;;
   print (newline +:+ "🚀 Strava Authorization" +:+ newline) ;;
   print "1. A browser window has opened for Strava authorization." ;;
   print "2. After authorizing, you'll be redirected to a URL." ;;
   print "3. Copy the ENTIRE URL from your browser." ;;
   let! line := input (newline +:+ "Enter the FULL redirect URL: ") in
   let! auth_code := M.lift (code_of line) in
   let! tokens := M.on_world (exchange_token self (JStr auth_code)) in
   let! access_token := M.lift (py_getitem tokens "access_token") in
   let! refresh_token := M.lift (py_getitem tokens "refresh_token") in
   let! expires_at := M.lift (py_getitem tokens "expires_at") in
   M.ret (JObj {[ "access_token" := access_token;
                  "refresh_token" := refresh_token;
                  "expires_at" := expires_at ]}))%M.

(** [save_tokens] as the script calls it: the module binds [json] only
    when it runs as [__main__]. *)
Definition save_tokens (tokens : json) : M (terminal * world) unit :=
  M.on_world (json_dump_file tokens "strava_tokens.json").

(** The body of [if __name__ == "__main__":] *)
Definition main : M (terminal * world) unit :=
  (let! authenticator := M.on_world __init__ in
   let! tokens := authenticate authenticator in
   save_tokens tokens ;;
   print (newline +:+ "✅ Authentication Successfull!"))%M.
End Methods.
End Script.

(** ** Vocabulary of the token statements *)

(** The token set [_refresh_token] builds from the answer of the service. *)
Definition new_token_set (new_tokens : json) : result json :=
  (let? access_token := py_getitem new_tokens "access_token" in
   let? refresh_token := py_getitem new_tokens "refresh_token" in
   let? expires_at := py_getitem new_tokens "expires_at" in
   Ok (JObj {[ "access_token" := access_token;
               "refresh_token" := refresh_token;
               "expires_at" := expires_at ]}))%res.

(** A token set as the service issues it: two strings and the expiry as
    an integer, in seconds since the epoch. *)
Definition token_set (access_token refresh_token : string) (expires_at : Z) : json :=
  JObj {[ "access_token" := JStr access_token;
          "refresh_token" := JStr refresh_token;
          "expires_at" := JInt expires_at ]}.

(** What may follow a number in the text of an object. *)
Definition ends_value (s : string) : Prop :=
  ∃ c rest, s = String c rest ∧ (c = "," ∨ c = "}")%char.

(** The text of one member of an object: its key, a colon, a space, the
    text of its value, and what follows. *)
Definition member (key text rest : string) : string :=
  String Ref.dquote
    (Ref.escape key +:+ String Ref.dquote (String ":" (String " " (text +:+ rest)))).

(** The text that the reference writer writes for a token set. *)
Definition token_text (a r : string) (e : Z) : string :=
  String "{"
    (member "expires_at" (pretty e)
       (String "," (String " "
          (member "access_token" (Ref.quote a)
             (String "," (String " "
                (member "refresh_token" (Ref.quote r) (String "}" "")))))))).

(** The world after [load_dotenv()]. *)
Definition after_dotenv (w : world) : world :=
  with_environ (environ w ∪ dotenv w) w.

(** The world after [requests] has been called with [request]. *)
Definition after_request (request : http_request) (w : world) : world :=
  with_sent (sent w ++ [request]) w.

(** The world after the credential file has been rewritten. *)
Definition after_persist `{PythonLib} (t : json) (w : world) : world :=
  with_files (<["strava_tokens.json" := json_dumps t]> (files w)) w.

(** What [exchange_token] makes of the outcome of its request. *)
Definition exchange_outcome `{PythonLib} (outcome : http_outcome) : result json :=
  match outcome with
  | Responds response =>
      if (status_code response =? 200)%Z then response_json response
      else Raise (Exception ("Token exchange failed: " +:+ text response))
  | Unreachable msg => Raise (ConnectionError msg)
  end.


(** ** Examples used by the statements below *)

Definition sample_date : datetime :=
  {| year := 2024; month := 1; day := 1; hour := 0; minute := 0; second := 0;
     microsecond := 0; utcoffset := Some 0%Z |}.

Definition sample_bare : json :=
  JObj {[ "start_date" := JStr "2024-01-01T00:00:00Z" ]}.

Definition sample_malformed : json :=
  JObj {[ "start_date" := JStr "2024-01-01T00:00:00Z"; "distance" := JStr "5000" ]}.

Definition sample_run : gmap string json :=
  {[ "start_date" := JStr "2024-01-01T00:00:00Z";
     "distance" := JInt 5000;
     "moving_time" := JInt 1800;
     "average_speed" := JFloat 2.78 ]}.

(** The raw input of the specification's conversion example, as it is
    written there. *)
Definition spec_example : json :=
  JObj {[ "distance" := JInt 5000;
          "moving_time" := JInt 1800;
          "average_speed" := JFloat 2.78 ]}.

Definition sample_fetcher : StravaDataFetcher.t :=
  {| StravaDataFetcher.tokens :=
       JObj {[ "access_token" := JStr "a1"; "refresh_token" := JStr "r1";
               "expires_at" := JInt 1700000000 ]} |}.


(** ** Worlds used by the examples *)

Definition sample_environ : gmap string string :=
  {[ "STRAVA_CLIENT_ID" := "12345";
     "STRAVA_CLIENT_SECRET" := "s3cret";
     "STRAVA_REDIRECT_URI" := "http://localhost" ]}.

Definition sample_auth : StravaAuthenticator.t :=
  {| StravaAuthenticator.client_id := "12345";
     StravaAuthenticator.client_secret := "s3cret";
     StravaAuthenticator.redirect_uri := "http://localhost" |}.

Definition fresh_tokens : json :=
  JObj {[ "access_token" := JStr "a2"; "refresh_token" := JStr "r2";
          "expires_at" := JInt 1800000000 ]}.

Definition jane_doe : json :=
  JObj {[ "firstname" := JStr "Jane"; "lastname" := JStr "Doe" ]}.

(** A service that grants every token request and has no activities. *)
Definition granting (request : http_request) : http_outcome :=
  match req_method request with
  | POST => Responds {| status_code := 200; text := Ref.dumps fresh_tokens |}
  | GET =>
      if String.eqb (req_url request) StravaDataFetcher.athlete_url
      then Responds {| status_code := 200; text := Ref.dumps jane_doe |}
      else Responds {| status_code := 200; text := "[]" |}
  end.

(** A service that rejects every request with status 401. *)
Definition rejecting (request : http_request) : http_outcome :=
  Responds {| status_code := 401; text := "Authorization Error" |}.

(** A world in which the credentials are in the environment, there is
    no [.env] file, and [strava_data] was imported as part of a package. *)
Definition sample_world (now : float) (service : http_request → http_outcome) : world :=
  {| files := {[ "strava_tokens.json" :=
                   Ref.dumps (StravaDataFetcher.tokens sample_fetcher) ]};
     environ := sample_environ;
     dotenv := ∅;
     in_package := true;
     clock := now;
     remote := service;
     sent := [];
     stdout := [] |}.

(** A world as [dash.py] runs in: [strava_data] is imported as a
    top-level module.  Here the credentials are in the [.env] file. *)
Definition dash_world (now : float) (service : http_request → http_outcome) : world :=
  {| files := {[ "strava_tokens.json" :=
                   Ref.dumps (StravaDataFetcher.tokens sample_fetcher) ]};
     environ := ∅;
     dotenv := sample_environ;
     in_package := false;
     clock := now;
     remote := service;
     sent := [];
     stdout := [] |}.

(** A world whose credential file has a name of its own. *)
Definition named_file_world : world :=
  {| files := {[ "athlete.json" :=
                   Ref.dumps (StravaDataFetcher.tokens sample_fetcher) ]};
     environ := sample_environ;
     dotenv := ∅;
     in_package := true;
     clock := 1750000000.25;
     remote := granting;
     sent := [];
     stdout := [] |}.

(** The clock before and after the expiry of the stored token set. *)
Definition early : float := 1650000000.25.
Definition late : float := 1750000000.25.

(** A credential file without an access token. *)
Definition no_access_token : json :=
  JObj {[ "refresh_token" := JStr "r1"; "expires_at" := JInt 1700000000 ]}.

Definition world_without_access_token : world :=
  with_files {[ "strava_tokens.json" := Ref.dumps no_access_token ]}
             (sample_world early granting).


(** ** Vocabulary of the further statements *)

(** The fields of a raw activity that enter an arithmetic operation. *)
Definition numeric_fields : list string :=
  ["distance"; "moving_time"; "total_elevation_gain"; "average_speed"].

(** [c] does not occur in [s]. *)
Fixpoint lacks (c : ascii) (s : string) : bool :=
  match s with
  | EmptyString => true
  | String a rest => negb (Ascii.eqb a c) && lacks c rest
  end.

Definition sample_ride : json :=
  JObj {[ "name" := JStr "Morning Ride"; "type" := JStr "Ride";
          "start_date" := JStr "2024-03-09T07:15:00Z";
          "distance" := JFloat 25012.3; "moving_time" := JInt 3605;
          "total_elevation_gain" := JFloat 312.456;
          "average_speed" := JFloat 6.938;
          "average_heartrate" := JFloat 141.2; "max_heartrate" := JInt 176 ]}.

(** [sep] occurs somewhere in [s]. *)
Fixpoint occurs (sep s : string) : bool :=
  String.prefix sep s
  || match s with
     | String _ rest => occurs sep rest
     | EmptyString => false
     end.

Definition sample_redirect : string :=
  "http://localhost/exchange_token?state=&code=4f1c0de9&scope=read,activity:read_all".

Definition sample_terminal : terminal :=
  {| stdin := [sample_redirect]; opened := [] |}.

(** What [authenticate] writes to the console before it reads. *)
Definition instructions : list console_line :=
  [ Line (newline +:+ "🚀 Strava Authorization" +:+ newline);
    Line "1. A browser window has opened for Strava authorization.";
    Line "2. After authorizing, you'll be redirected to a URL.";
    Line "3. Copy the ENTIRE URL from your browser.";
    Prompt (newline +:+ "Enter the FULL redirect URL: ") ].

Definition success_line : console_line :=
  Line (newline +:+ "✅ Authentication Successfull!").

(** The terminal after the browser has been opened at [url]. *)
Definition after_open (url : string) (tty : terminal) : terminal :=
  {| stdin := stdin tty; opened := opened tty ++ [url] |}.

(** The terminal after its first line has been read. *)
Definition after_read (tty : terminal) : terminal :=
  {| stdin := tail (stdin tty); opened := opened tty |}.

(** What the [except] clauses print for an exception. *)
Definition reported (what : string) (e : exn) : console_line :=
  if is_RequestException e then LineExn "Network Error: " e
  else LineExn ("Unexpected error fetching " +:+ what +:+ ": ") e.

(** The response, or the exception, that a fetch method gets out of the
    outcome of its request. *)
Definition fetched `{PythonLib} (outcome : http_outcome) : result json :=
  match outcome with
  | Unreachable msg => Raise (ConnectionError msg)
  | Responds response =>
      if (status_code response =? 200)%Z then response_json response
      else Raise (StravaDataFetcher.http_error response)
  end.

Definition sample_run_row : Activity.t :=
  {| Activity.name := JStr "Unnamed Activity"; Activity.type := JStr "Unknown";
     Activity.start_date := sample_date; Activity.distance_km := 5;
     Activity.moving_time_min := 30; Activity.total_elevation_gain := JInt 0;
     Activity.average_speed_kmh := 10.01;
     Activity.average_heartrate := JNull; Activity.max_heartrate := JNull |}.

Definition sample_floats : gmap string json :=
  {[ "start_date" := JStr "2024-03-09T07:15:00Z";
     "distance" := JFloat nan;
     "average_speed" := JFloat 2.5 ]}.

(** A service that answers every request with an empty list. *)
Definition empty_lists (request : http_request) : http_outcome :=
  Responds {| status_code := 200; text := "[]" |}.

(** A credential file whose expiry is a string. *)
Definition string_expiry : json :=
  JObj {[ "access_token" := JStr "a1"; "refresh_token" := JStr "r1";
          "expires_at" := JStr "1700000000" ]}.

Definition sample_headers : gmap string string :=
  {[ "Authorization" := "Bearer a1" ]}.

Definition rejection : exn := Exception "HTTP Error: 401 - Authorization Error".

Definition jane_profile : Athlete.t :=
  {| Athlete.name := "Jane Doe"; Athlete.username := JNull;
     Athlete.profile_image := JNull; Athlete.total_followers := JNull;
     Athlete.total_friends := JNull |}.

(** * Proofs *)

(** ** Strings *)

Lemma append_cons (a : ascii) (s t : string) : String a s +:+ t = String a (s +:+ t).
Proof. reflexivity. Qed.

Lemma append_nil_r (s : string) : s +:+ "" = s.
Proof. induction s as [|a s IH]; [done|]. by rewrite append_cons, IH. Qed.

Lemma append_assoc (s1 s2 s3 : string) : (s1 +:+ s2) +:+ s3 = s1 +:+ (s2 +:+ s3).
Proof. induction s1 as [|a s1 IH]; [done|]. by rewrite !append_cons, IH. Qed.

Lemma length_append (s t : string) :
  String.length (s +:+ t) = String.length s + String.length t.
Proof. induction s as [|a s IH]; [done|]. rewrite append_cons. simpl. by rewrite IH. Qed.


(** ** The reference JSON codec

    What the writer writes for a string or an integer, the reader reads
    back. *)

Module RefCodec.
Import Ref.

(** *** Integers *)

Lemma pretty_N_go_append x :
  ∀ s t, pretty_N_go x s +:+ t = pretty_N_go x (s +:+ t).
Proof.
  induction (N.lt_wf_0 x) as [x _ IH]; intros s t.
  destruct (decide (x = 0)%N) as [->|Hx]; [by rewrite !pretty_N_go_0|].
  rewrite (pretty_N_go_step x s), (pretty_N_go_step x (s +:+ t)) by lia.
  rewrite IH by (apply N.div_lt; lia). reflexivity.
Qed.

Lemma digit_pretty_N_char d :
  (d < 10)%N → digit (pretty_N_char d) = Some (Z.of_N d).
Proof.
  intros Hd.
  assert (d = 0 ∨ d = 1 ∨ d = 2 ∨ d = 3 ∨ d = 4 ∨ d = 5 ∨ d = 6 ∨ d = 7 ∨ d = 8 ∨ d = 9)%N
    as Hcases by lia.
  destruct Hcases as [->|[->|[->|[->|[->|[->|[->|[->|[->| ->]]]]]]]]]; reflexivity.
Qed.

(** The digits of [x], read after [acc], count for [x]. *)
Lemma take_digits_pretty x :
  ∃ k : nat, ((0 < x)%N → (0 < k)%nat)
       ∧ ∀ s acc c, take_digits (pretty_N_go x s) acc c
                    = take_digits s (acc * 10 ^ Z.of_nat k + Z.of_N x)%Z (c + k)%nat.
Proof.
  induction (N.lt_wf_0 x) as [x _ IH].
  destruct (decide (x = 0)%N) as [->|Hx].
  { exists 0%nat. split; [lia|]. intros s acc c. rewrite pretty_N_go_0.
    f_equal; [f_equal; lia|lia]. }
  destruct (IH (x `div` 10)%N) as (k & _ & Hk); [apply N.div_lt; lia|].
  exists (S k). split; [lia|]. intros s acc c.
  rewrite pretty_N_go_step, Hk by lia. cbn [take_digits].
  rewrite digit_pretty_N_char by (apply N.mod_lt; lia).
  f_equal; [|lia].
  rewrite Nat2Z.inj_succ, Z.pow_succ_r by lia.
  rewrite N2Z.inj_div, N2Z.inj_mod.
  pose proof (Z.div_mod (Z.of_N x) 10 ltac:(lia)). lia.
Qed.

(** The first digit of a positive number is not a zero. *)
Lemma pretty_N_go_head x s :
  (0 < x)%N →
  ∃ d t, pretty_N_go x s = String (pretty_N_char d) t ∧ (0 < d < 10)%N.
Proof.
  revert s. induction (N.lt_wf_0 x) as [x _ IH]; intros s Hx.
  rewrite pretty_N_go_step by done.
  destruct (decide (x < 10)%N) as [Hlt|Hge].
  - rewrite N.div_small, pretty_N_go_0, N.mod_small by done. eauto.
  - apply IH; [apply N.div_lt; lia|]. apply N.div_str_pos. lia.
Qed.

Lemma nonzero_digit_tests d :
  (0 < d < 10)%N →
  Ascii.eqb (pretty_N_char d) "-" = false ∧ Ascii.eqb (pretty_N_char d) "0" = false.
Proof.
  intros Hd.
  assert (d = 1 ∨ d = 2 ∨ d = 3 ∨ d = 4 ∨ d = 5 ∨ d = 6 ∨ d = 7 ∨ d = 8 ∨ d = 9)%N
    as Hcases by lia.
  destruct Hcases as [->|[->|[->|[->|[->|[->|[->|[->| ->]]]]]]]]; by split.
Qed.

(** A natural number is read back, up to what follows it. *)
Lemma read_number_N x s :
  ends_value s → read_number (pretty x +:+ s) = Some (JInt (Z.of_N x), s).
Proof.
  intros (c & rest & -> & Hc).
  unfold pretty, pretty_N. case_decide as Hx.
  { subst x. destruct Hc as [-> | ->]; reflexivity. }
  rewrite pretty_N_go_append.
  change ("" +:+ String c rest) with (String c rest).
  destruct (pretty_N_go_head x (String c rest)) as (d & t & Hhead & Hd); [lia|].
  destruct (nonzero_digit_tests d Hd) as [Hdash Hzero].
  destruct (take_digits_pretty x) as (k & Hk & Hdigits).
  specialize (Hdigits (String c rest) 0%Z 0%nat).
  unfold read_number. rewrite Hhead, Hdash, Hzero, <- Hhead, Hdigits.
  assert (take_digits (String c rest) (0 * 10 ^ Z.of_nat k + Z.of_N x) (0 + k)
          = (Z.of_N x, k, String c rest)) as ->.
  { destruct Hc as [-> | ->]; cbn; f_equal; f_equal; lia. }
  assert ((k =? 0)%nat = false) as -> by (apply Nat.eqb_neq; lia).
  destruct Hc as [-> | ->]; reflexivity.
Qed.

(** An integer is read back, up to what follows it. *)
Lemma read_number_Z z s :
  ends_value s → read_number (pretty z +:+ s) = Some (JInt z, s).
Proof.
  intros Hs. destruct z as [|p|p].
  - destruct Hs as (c & rest & -> & [-> | ->]); reflexivity.
  - apply (read_number_N (Npos p) s Hs).
  - change (pretty (Zneg p)) with ("-" +:+ pretty (Npos p)).
    pose proof (read_number_N (Npos p) s Hs) as Hpos.
    rewrite append_assoc. change ("-" +:+ ?t) with (String "-" t).
    unfold read_number in *. rewrite Ascii.eqb_refl.
    destruct (pretty (N.pos p) +:+ s) as [|a t] eqn:Htext; [done|].
    assert (Ascii.eqb a "-" = false) as Hdash.
    { destruct (Ascii.eqb a "-") eqn:Ha; [|done]. apply Ascii.eqb_eq in Ha as ->.
      unfold pretty, pretty_N in Htext. case_decide; [done|].
      rewrite pretty_N_go_append in Htext.
      by destruct (pretty_N_go_ne_dash (Npos p) ("" +:+ s) t
                     ltac:(destruct Hs as (c & rest & -> & [-> | ->]); done)). }
    rewrite Hdash in Hpos.
    destruct (if Ascii.eqb a "0" then _ else _) as [[i s2]|]; [|done].
    simpl in *.
    destruct (match s2 with "" => _ | String _ _ => _ end) as [[f nf] s3].
    destruct (read_exponent s3) as [[e s4]|]; [done|].
    destruct (nf =? 0)%nat; [|done]. by injection Hpos as -> ->.
Qed.

(** *** Strings *)

Local Ltac div_lia := zify; Z.to_euclidean_division_equations; lia.

Lemma hex_value_digit d : (d < 16)%N → hex_value (hex_digit d) = Some d.
Proof.
  intros Hd.
  assert (d = 0 ∨ d = 1 ∨ d = 2 ∨ d = 3 ∨ d = 4 ∨ d = 5 ∨ d = 6 ∨ d = 7 ∨ d = 8
          ∨ d = 9 ∨ d = 10 ∨ d = 11 ∨ d = 12 ∨ d = 13 ∨ d = 14 ∨ d = 15)%N
    as Hcases by lia.
  destruct Hcases
    as [->|[->|[->|[->|[->|[->|[->|[->|[->|[->|[->|[->|[->|[->|[->| ->]]]]]]]]]]]]]]];
    reflexivity.
Qed.

(** The four digits written for [n] read as [n]. *)
Lemma hex4_digits n :
  (n < 65536)%N →
  hex4 (hex_digit (n / 4096)) (hex_digit (n / 256 mod 16))
       (hex_digit (n / 16 mod 16)) (hex_digit (n mod 16)) = Some n.
Proof.
  intros Hn. unfold hex4.
  rewrite !hex_value_digit
    by (try apply N.mod_lt; try apply N.Div0.div_lt_upper_bound; lia).
  simpl. f_equal. div_lia.
Qed.

(** One step of the reader on an escape [\uXXXX]. *)
Lemma read_string_u fuel h1 h2 h3 h4 t acc :
  read_string (S fuel)
    (String "\" (String "u" (String h1 (String h2 (String h3 (String h4 t)))))) acc
  = (hi ← hex4 h1 h2 h3 h4;
     match (if ((55296 <=? hi) && (hi <=? 56319))%N then low_surrogate t else None) with
     | Some (lo, tail') =>
         read_string fuel tail'
           (acc +:+ utf8 (65536 + (hi - 55296) * 1024 + (lo - 56320))%N)
     | None => read_string fuel t (acc +:+ utf8 hi)
     end).
Proof. reflexivity. Qed.

(** The reader takes the escape of a character for this character. *)
Lemma read_code_point cp fuel t acc :
  (cp < 1114112)%N →
  ¬ (55296 ≤ cp ≤ 57343)%N →
  read_string (S fuel) (escape_code_point cp +:+ t) acc
  = read_string fuel t (acc +:+ utf8 cp).
Proof.
  intros Hmax Hsur. unfold escape_code_point.
  destruct (N.ltb_spec cp 65536) as [Hlt|Hge].
  - unfold hex4_text. rewrite append_assoc.
    change ("\u" +:+ ?s) with (String "\" (String "u" s)).
    rewrite !append_cons. change ("" +:+ t) with t.
    rewrite read_string_u, hex4_digits by done. simpl.
    destruct (N.leb_spec 55296 cp), (N.leb_spec cp 56319); simpl; try done. lia.
  - set (v := (cp - 65536)%N).
    assert (v / 1024 < 1024)%N by (apply N.Div0.div_lt_upper_bound; lia).
    assert (v mod 1024 < 1024)%N by (apply N.mod_lt; lia).
    unfold hex4_text at 1. rewrite !append_assoc.
    change ("\u" +:+ ?s) with (String "\" (String "u" s)).
    rewrite !append_cons. change ("" +:+ ?s) with s.
    rewrite read_string_u, hex4_digits by lia. simpl.
    destruct (N.leb_spec 55296 (55296 + v / 1024)),
             (N.leb_spec (55296 + v / 1024) 56319); try div_lia. simpl.
    unfold hex4_text, low_surrogate.
    change ("\u" +:+ ?s) with (String "\" (String "u" s)).
    rewrite !append_cons. change ("" +:+ t) with t.
    rewrite hex4_digits by lia. simpl.
    destruct (N.leb_spec 56320 (56320 + v mod 1024)),
             (N.leb_spec (56320 + v mod 1024) 57343); try div_lia. simpl.
    do 3 f_equal. subst v. div_lia.
Qed.

(** The same for a character of one byte. *)
Lemma read_escape_char a fuel t acc :
  (N_of_ascii a < 128)%N →
  read_string (S fuel) (escape_char a +:+ t) acc
  = read_string fuel t (acc +:+ String a "").
Proof.
  destruct a as [[] [] [] [] [] [] [] []]; intros Ha;
    first [reflexivity | vm_compute in Ha; discriminate].
Qed.

Lemma escape_char_length a : 1 ≤ String.length (escape_char a).
Proof. unfold escape_char, hex4_text. repeat case_match; simpl; lia. Qed.

Lemma escape_code_point_length cp : 1 ≤ String.length (escape_code_point cp).
Proof.
  unfold escape_code_point, hex4_text. case_match; [simpl; lia|].
  rewrite length_append. simpl. lia.
Qed.

(** A byte that stands for itself. *)
Lemma read_raw_byte a fuel t acc :
  (128 ≤ N_of_ascii a)%N →
  read_string (S fuel) (String a t) acc = read_string fuel t (acc +:+ String a "").
Proof.
  destruct a as [[] [] [] [] [] [] [] []]; intros Ha;
    first [reflexivity | exfalso; vm_compute in Ha; by apply Ha].
Qed.

(** Bytes that are decoded encode a character, which is not one half of
    a surrogate pair. *)
Lemma decode2_Some a b cp :
  decode2 a b = Some cp →
  utf8 cp = String a (String b "") ∧ (cp < 1114112)%N ∧ ¬ (55296 ≤ cp ≤ 57343)%N.
Proof.
  unfold decode2. case_match eqn:Hutf; [|done]. intros [= <-].
  apply String.eqb_eq in Hutf. split; [done|].
  pose proof (N_ascii_bounded a). pose proof (N_ascii_bounded b). lia.
Qed.

Lemma decode3_Some a b c cp :
  decode3 a b c = Some cp →
  utf8 cp = String a (String b (String c ""))
  ∧ (cp < 1114112)%N ∧ ¬ (55296 ≤ cp ≤ 57343)%N.
Proof.
  unfold decode3. case_match eqn:Htest; [|done]. intros [= <-].
  apply andb_true_iff in Htest as [Hutf Hsur]. apply String.eqb_eq in Hutf.
  split; [done|].
  pose proof (N_ascii_bounded a). pose proof (N_ascii_bounded b).
  pose proof (N_ascii_bounded c).
  apply negb_true_iff, andb_false_iff in Hsur. split; [lia|].
  destruct Hsur as [Hsur|Hsur]; [apply N.leb_gt in Hsur|apply N.leb_gt in Hsur]; lia.
Qed.

Lemma decode4_Some a b c d cp :
  decode4 a b c d = Some cp →
  utf8 cp = String a (String b (String c (String d "")))
  ∧ (cp < 1114112)%N ∧ ¬ (55296 ≤ cp ≤ 57343)%N.
Proof.
  unfold decode4. case_match eqn:Htest; [|done]. intros [= <-].
  apply andb_true_iff in Htest as [Hutf Hmax]. apply String.eqb_eq in Hutf.
  apply N.ltb_lt in Hmax. split; [done|]. split; [done|].
  set (cp := (_ + _)%N) in *. clearbody cp. unfold utf8 in Hutf.
  destruct (N.ltb_spec cp 128); [done|].
  destruct (N.ltb_spec cp 2048); [done|].
  destruct (N.ltb_spec cp 65536); [done|]. lia.
Qed.

Lemma escape_cons a s1 :
  escape (String a s1)
  = if (N_of_ascii a <? 128)%N then escape_char a +:+ escape s1
    else
      match s1 with
      | String b s2 =>
          match decode2 a b with
          | Some cp => escape_code_point cp +:+ escape s2
          | None =>
              match s2 with
              | String c s3 =>
                  match decode3 a b c with
                  | Some cp => escape_code_point cp +:+ escape s3
                  | None =>
                      match s3 with
                      | String d s4 =>
                          match decode4 a b c d with
                          | Some cp => escape_code_point cp +:+ escape s4
                          | None => String a (escape s1)
                          end
                      | EmptyString => String a (escape s1)
                      end
                  end
              | EmptyString => String a (escape s1)
              end
          end
      | EmptyString => String a (escape s1)
      end.
Proof. reflexivity. Qed.

(** The reader reads a written string back, up to the closing quote,
    when it has fuel for every character of the text. *)
Lemma read_string_escape n :
  ∀ s, String.length s ≤ n →
  ∀ fuel t acc,
    String.length (escape s) < fuel →
    read_string fuel (escape s +:+ String dquote t) acc = Some (acc +:+ s, t).
Proof.
  induction n as [|n IH]; intros s Hn fuel t acc Hfuel.
  { destruct s; [|simpl in Hn; lia]. destruct fuel; [simpl in Hfuel; lia|].
    by rewrite append_nil_r. }
  destruct s as [|a s1].
  { destruct fuel; [simpl in Hfuel; lia|]. by rewrite append_nil_r. }
  assert (∀ p s', String a s1 = p +:+ s' → String.length s' ≤ n →
            ∀ f, String.length (escape s') < f →
                 read_string f (escape s' +:+ String dquote t) (acc +:+ p)
                 = Some (acc +:+ String a s1, t)) as Hrest.
  { intros p s' -> Hlen f Hf. rewrite IH by done. by rewrite append_assoc. }
  simpl in Hn. rewrite escape_cons in Hfuel |- *.
  destruct (N.ltb_spec (N_of_ascii a) 128) as [Ha|Ha].
  { pose proof (escape_char_length a). rewrite length_append in Hfuel.
    destruct fuel as [|f]; [lia|].
    rewrite append_assoc, read_escape_char by done.
    apply Hrest; [done|lia|lia]. }
  assert (∀ f, String.length (String a (escape s1)) < S f →
            read_string (S f) (String a (escape s1) +:+ String dquote t) acc
            = Some (acc +:+ String a s1, t)) as Hraw.
  { intros f Hf. rewrite append_cons, read_raw_byte by done.
    apply Hrest; [done|lia|simpl in Hf; lia]. }
  assert (∀ cp p s' f,
            utf8 cp = p ∧ (cp < 1114112)%N ∧ ¬ (55296 ≤ cp ≤ 57343)%N →
            String a s1 = p +:+ s' → String.length s' ≤ n →
            String.length (escape_code_point cp +:+ escape s') < S f →
            read_string (S f) ((escape_code_point cp +:+ escape s') +:+ String dquote t) acc
            = Some (acc +:+ String a s1, t)) as Hpoint.
  { intros cp p s' f (Hutf & Hmax & Hsur) Hs Hlen Hf.
    pose proof (escape_code_point_length cp). rewrite length_append in Hf.
    rewrite append_assoc, read_code_point, Hutf by done.
    apply Hrest; [done|lia|lia]. }
  destruct fuel as [|f]; [lia|].
  destruct s1 as [|b s2]; [by apply Hraw|].
  destruct (decode2 a b) as [cp|] eqn:H2.
  { apply decode2_Some in H2. eapply Hpoint; [exact H2|done|simpl in *; lia|done]. }
  destruct s2 as [|c s3]; [by apply Hraw|].
  destruct (decode3 a b c) as [cp|] eqn:H3.
  { apply decode3_Some in H3. eapply Hpoint; [exact H3|done|simpl in *; lia|done]. }
  destruct s3 as [|d s4]; [by apply Hraw|].
  destruct (decode4 a b c d) as [cp|] eqn:H4; [|by apply Hraw].
  apply decode4_Some in H4. eapply Hpoint; [exact H4|done|simpl in *; lia|done].
Qed.

(** A written string is read back from the text of a value. *)
Lemma read_string_quote s t :
  read_string (String.length (escape s +:+ String dquote t))
    (escape s +:+ String dquote t) "" = Some (s, t).
Proof.
  rewrite (read_string_escape (String.length s) s); [done|done|].
  rewrite length_append. simpl. lia.
Qed.

(** *** Token sets *)

(** One step of the reader of values, of members. *)
Lemma read_value_string fuel s t :
  read_value (S fuel) (String " " (quote s +:+ t)) = Some (JStr s, t).
Proof.
  unfold quote. rewrite append_cons, append_assoc, append_cons.
  change ("" +:+ t) with t.
  change (read_value (S fuel) (String " " (String dquote ?x)))
    with ('(str, rest') ← read_string (String.length x) x ""; Some (JStr str, rest')).
  by rewrite read_string_quote.
Qed.

Lemma read_value_integer fuel z t :
  ends_value t → read_value (S fuel) (String " " (pretty z +:+ t)) = Some (JInt z, t).
Proof.
  intros Ht. rewrite <- (read_number_Z z t Ht).
  assert (∃ d rest, (d < 10)%N
            ∧ (pretty z +:+ t = String (pretty_N_char d) rest
               ∨ pretty z +:+ t = String "-" (String (pretty_N_char d) rest)))
    as (d & rest & Hd & Hhead).
  { assert (∀ x : N, ∃ d rest,
              (d < 10)%N ∧ pretty x +:+ t = String (pretty_N_char d) rest) as Hnat.
    { intros x. unfold pretty, pretty_N. case_decide as Hx.
      - exists 0%N, t. by split.
      - rewrite pretty_N_go_append.
        destruct (pretty_N_go_head x ("" +:+ t)) as (d & rest & Hhead & Hd); [lia|].
        exists d, rest. split; [lia|done]. }
    destruct z as [|p|p].
    - exists 0%N, t. split; [lia|by left].
    - destruct (Hnat (Npos p)) as (d & rest & Hd & Hhead). exists d, rest. by eauto.
    - destruct (Hnat (Npos p)) as (d & rest & Hd & Hhead). exists d, rest.
      split; [done|]. right.
      change (pretty (Zneg p)) with ("-" +:+ pretty (Npos p)).
      rewrite append_assoc, Hhead. reflexivity. }
  assert (d = 0 ∨ d = 1 ∨ d = 2 ∨ d = 3 ∨ d = 4 ∨ d = 5 ∨ d = 6 ∨ d = 7 ∨ d = 8 ∨ d = 9)%N
    as Hcases by lia.
  destruct Hhead as [-> | ->];
    destruct Hcases as [->|[->|[->|[->|[->|[->|[->|[->|[->| ->]]]]]]]]]; reflexivity.
Qed.

Lemma read_members_more fuel key text v rest acc :
  read_value fuel (String " " (text +:+ String "," rest)) = Some (v, String "," rest) →
  read_members (S fuel) (member key text (String "," rest)) acc
  = read_members fuel rest (<[key := v]> acc).
Proof.
  intros Hv. unfold member.
  change (read_members (S fuel) (String dquote ?x) acc)
    with ('(key, rest1) ← read_string (String.length x) x "";
          match skip_ws rest1 with
          | String c rest2 =>
              if Ascii.eqb c ":" then
                '(v, rest3) ← read_value fuel rest2;
                match skip_ws rest3 with
                | String a rest4 =>
                    if Ascii.eqb a "," then read_members fuel rest4 (<[key := v]> acc)
                    else if Ascii.eqb a "}" then Some (JObj (<[key := v]> acc), rest4)
                    else None
                | EmptyString => None
                end
              else None
          | EmptyString => None
          end).
  rewrite read_string_quote. cbn [mbind option_bind skip_ws is_ws]. simpl.
  rewrite Hv. reflexivity.
Qed.

Lemma read_members_last fuel key text v rest acc :
  read_value fuel (String " " (text +:+ String "}" rest)) = Some (v, String "}" rest) →
  read_members (S fuel) (member key text (String "}" rest)) acc
  = Some (JObj (<[key := v]> acc), rest).
Proof.
  intros Hv. unfold member.
  change (read_members (S fuel) (String dquote ?x) acc)
    with ('(key, rest1) ← read_string (String.length x) x "";
          match skip_ws rest1 with
          | String c rest2 =>
              if Ascii.eqb c ":" then
                '(v, rest3) ← read_value fuel rest2;
                match skip_ws rest3 with
                | String a rest4 =>
                    if Ascii.eqb a "," then read_members fuel rest4 (<[key := v]> acc)
                    else if Ascii.eqb a "}" then Some (JObj (<[key := v]> acc), rest4)
                    else None
                | EmptyString => None
                end
              else None
          | EmptyString => None
          end).
  rewrite read_string_quote. cbn [mbind option_bind skip_ws is_ws]. simpl.
  rewrite Hv. reflexivity.
Qed.

Lemma read_members_space fuel s acc :
  read_members fuel (String " " s) acc = read_members fuel s acc.
Proof. by destruct fuel. Qed.

Lemma token_members (x y z : string) :
  map_to_list ({[ "access_token" := x; "refresh_token" := y; "expires_at" := z ]}
               : gmap string string)
  = [("expires_at", z); ("access_token", x); ("refresh_token", y)].
Proof. vm_compute. reflexivity. Qed.

Lemma dumps_token_set a r e : dumps (token_set a r e) = token_text a r e.
Proof.
  unfold token_set. cbn [dumps].
  rewrite !fmap_insert, map_fmap_singleton, token_members.
  cbn [map String.concat fst snd dumps]. unfold token_text, member, quote.
  rewrite ?append_assoc, ?append_cons. reflexivity.
Qed.

(** A token set that is written is read back as it was. *)
Lemma loads_dumps_token_set a r e :
  loads (dumps (token_set a r e)) = Some (token_set a r e).
Proof.
  rewrite dumps_token_set. unfold loads.
  assert (∃ fuel, 2 * String.length (token_text a r e) + 2 = S (S (S (S (S fuel)))))
    as [fuel ->].
  { assert (∃ n, String.length (token_text a r e) = S (S n)) as [n Hn]
      by (unfold token_text, member; cbn [String.length]; eauto).
    exists (2 * n + 1). lia. }
  unfold token_text.
  change (read_value (S ?f) (String "{" (member ?k ?x ?t)))
    with (read_members f (member k x t) ∅).
  rewrite (read_members_more _ _ _ (JInt e))
    by (apply read_value_integer; do 2 eexists; split; [reflexivity|by left]).
  rewrite read_members_space.
  rewrite (read_members_more _ _ _ (JStr a)) by apply read_value_string.
  rewrite read_members_space.
  rewrite (read_members_last _ _ _ (JStr r)) by apply read_value_string.
  cbn [mbind option_bind skip_ws String.eqb]. simpl. reflexivity.
Qed.
End RefCodec.

(** ** Results *)

Lemma bind_Ok {A B} (r : result A) (k : A → result B) (b : B) :
  Res.bind r k = Ok b ↔ ∃ a, r = Ok a ∧ k a = Ok b.
Proof.
  destruct r as [a|e]; simpl; split.
  - eauto.
  - by intros (a' & [= ->] & Hk).
  - discriminate.
  - by intros (a' & [=] & _).
Qed.

Lemma bind_Raise {A B} (r : result A) (k : A → result B) (e : exn) :
  Res.bind r k = Raise e ↔ r = Raise e ∨ ∃ a, r = Ok a ∧ k a = Raise e.
Proof.
  destruct r as [a|e']; simpl; split.
  - eauto.
  - by intros [[=]|(a' & [= ->] & Hk)].
  - intros [= ->]. by left.
  - by intros [[= ->]|(a' & [=] & _)].
Qed.

Lemma is_Ok_true {A} (r : result A) : is_Ok r = true ↔ ∃ a, r = Ok a.
Proof.
  destruct r as [a|e]; simpl; split.
  - eauto.
  - done.
  - discriminate.
  - by intros [a [=]].
Qed.

Ltac inv_binds :=
  repeat match goal with
    | H : Res.bind _ _ = Ok _ |- _ =>
        let a := fresh "a" in
        let Ha := fresh "H" a in
        apply bind_Ok in H; destruct H as (a & Ha & H)
    end.

(** ** The processing loop *)

Section Processing.
Context `{PythonLib}.
Import StravaDataFetcher.

(** The loop keeps what it has accumulated and adds one row per
    activity, left to right. *)
Lemma process_loop_Ok (activities : list json) :
  ∀ acc rows,
    process_loop acc activities = Ok rows
    ↔ ∃ rows', rows = acc ++ rows'
               ∧ Forall2 (λ a r, process_activity a = Ok r) activities rows'.
Proof.
  induction activities as [|a rest IH]; intros acc rows; simpl.
  - split.
    + intros [= <-]. exists []. by rewrite app_nil_r.
    + intros (rows' & -> & Hall). apply Forall2_nil_inv_l in Hall as ->.
      by rewrite app_nil_r.
  - rewrite bind_Ok. split.
    + intros (row & Hrow & Hloop). apply IH in Hloop as (rows' & -> & Hall).
      exists (row :: rows'). split; [by rewrite <- app_assoc | by constructor].
    + intros (rows' & -> & Hall).
      apply Forall2_cons_inv_l in Hall as (row & rows'' & Hrow & Hall & ->).
      exists row. split; [done|]. apply IH. exists rows''.
      split; [by rewrite <- app_assoc | done].
Qed.

(** The loop stops at the first activity that raises, whatever follows
    it. *)
Lemma process_loop_Raise (activities : list json) :
  ∀ acc e,
    process_loop acc activities = Raise e
    ↔ ∃ before a after,
        activities = before ++ a :: after
        ∧ Forall (λ a', is_Ok (process_activity a') = true) before
        ∧ process_activity a = Raise e.
Proof.
  induction activities as [|a rest IH]; intros acc e; simpl.
  - split; [discriminate|]. intros (before & a & after & Heq & _).
    by destruct before.
  - rewrite bind_Raise. split.
    + intros [Ha|(row & Hrow & Hloop)].
      * exists [], a, rest. by repeat split.
      * apply IH in Hloop as (before & a' & after & -> & Hbefore & Ha').
        exists (a :: before), a', after. repeat split; [|done].
        constructor; [by rewrite Hrow | done].
    + intros (before & a' & after & Heq & Hbefore & Ha').
      destruct before as [|b before]; simplify_eq/=.
      * by left.
      * apply Forall_cons in Hbefore as [Hb Hbefore].
        apply is_Ok_true in Hb as [row Hrow]. right. exists row.
        split; [done|]. apply IH. by exists before, a', after.
Qed.

Lemma process_activities_Ok self activities rows :
  process_activities self activities = Ok rows
  ↔ Forall2 (λ a r, process_activity a = Ok r) activities rows.
Proof.
  unfold process_activities. rewrite process_loop_Ok. split.
  - by intros (rows' & -> & Hall).
  - intros Hall. by exists rows.
Qed.

Lemma process_activity_bare activity d :
  bare_activity activity d → process_activity activity = Ok (default_row d).
Proof.
  intros (m & s & -> & Hdate & Hparse & Hnone).
  unfold process_activity, py_get. rewrite Hdate.
  repeat match goal with
    | |- context [m !! ?k] =>
        rewrite (Hnone k) by (unfold optional_fields; set_solver)
    end.
  simpl. unfold datetime_fromisoformat. rewrite Hparse. reflexivity.
Qed.
End Processing.

Section Normalisation.
Context `{PythonLib}.
Import StravaDataFetcher.

(** C1 (as amended).  A batch of raw activities that each carry a start
    date that parses and none of the optional fields is processed without
    failing into one row of defaults per activity; and when an activity
    that raises follows such a batch, the whole call raises that
    exception, whatever comes after it. *)
Theorem process_activities_defaults self activities dates :
  Forall2 bare_activity activities dates →
  process_activities self activities = Ok (default_row <$> dates)
  ∧ ∀ a after e,
      process_activity a = Raise e →
      process_activities self (activities ++ a :: after) = Raise e.
Proof.
  intros Hbare.
  assert (Forall2 (λ a r, process_activity a = Ok r) activities (default_row <$> dates))
    as Hrows.
  { apply Forall2_fmap_r. eapply Forall2_impl; [done|].
    intros a d Had. by apply process_activity_bare. }
  split; [by apply process_activities_Ok|].
  intros a after e Ha. apply process_loop_Raise. exists activities, a, after.
  repeat split; [|done].
  eapply Forall2_Forall_l; [exact Hrows|].
  apply Forall_true. intros r a' Hr. by rewrite Hr.
Qed.

(** C7 (as amended).  For a raw activity with a start date that parses
    and an elevation gain that rounds, the row holds the distance divided
    by 1000, the moving time divided by 60 and the average speed
    multiplied by 3.6, each rounded to two decimals; with distance 5000,
    moving time 1800 and average speed 2.78 these are 5.0, 30.0 and
    10.01. *)
Theorem unit_conversions (m : gmap string json) s d g :
  m !! "start_date" = Some (JStr s) →
  fromisoformat (str_replace "Z" "+00:00" s) = Some d →
  py_round2 (default (JInt 0) (m !! "total_elevation_gain")) = Ok g →
  (∀ x y z,
     py_truediv (default (JInt 0) (m !! "distance")) 1000 = Ok x →
     py_truediv (default (JInt 0) (m !! "moving_time")) 60 = Ok y →
     py_mul_float (default (JInt 0) (m !! "average_speed")) 3.6 = Ok z →
     ∃ row, process_activity (JObj m) = Ok row
            ∧ Activity.distance_km row = round2 x
            ∧ Activity.moving_time_min row = round2 y
            ∧ Activity.average_speed_kmh row = round2 z)
  ∧ (m !! "distance" = Some (JInt 5000) →
     m !! "moving_time" = Some (JInt 1800) →
     m !! "average_speed" = Some (JFloat 2.78) →
     ∃ row, process_activity (JObj m) = Ok row
            ∧ Activity.distance_km row = 5%float
            ∧ Activity.moving_time_min row = 30%float
            ∧ Activity.average_speed_kmh row = 10.01%float).
Proof.
  intros Hdate Hparse Hg.
  assert (∀ x y z,
     py_truediv (default (JInt 0) (m !! "distance")) 1000 = Ok x →
     py_truediv (default (JInt 0) (m !! "moving_time")) 60 = Ok y →
     py_mul_float (default (JInt 0) (m !! "average_speed")) 3.6 = Ok z →
     ∃ row, process_activity (JObj m) = Ok row
            ∧ Activity.distance_km row = round2 x
            ∧ Activity.moving_time_min row = round2 y
            ∧ Activity.average_speed_kmh row = round2 z) as Hgen.
  { intros x y z Hx Hy Hz. eexists.
    unfold process_activity, py_get. rewrite Hdate. simpl.
    unfold datetime_fromisoformat. rewrite Hparse. simpl.
    rewrite Hx. simpl. rewrite Hy. simpl. rewrite Hg. simpl. rewrite Hz. simpl.
    by repeat split. }
  split; [done|]. intros Hd Ht Hv.
  destruct (Hgen 5%float 30%float (2.78 * 3.6)%float) as (row & Hrow & ? & ? & ?).
  - by rewrite Hd.
  - by rewrite Ht.
  - by rewrite Hv.
  - exists row. repeat split; [done|..]; etrans; try done; by vm_compute.
Qed.

(** C10.  When [process_activities] returns, it returns as many rows as
    there are activities, the row at each position being the one built
    from the activity at that position; the rows do not depend on the
    fetcher's state, so a second call returns the same rows. *)
Theorem process_activities_rows self activities rows :
  process_activities self activities = Ok rows →
  length rows = length activities
  ∧ (∀ i a, activities !! i = Some a →
            ∃ r, rows !! i = Some r ∧ process_activity a = Ok r)
  ∧ (∀ self', process_activities self' activities = Ok rows).
Proof.
  intros Hrows. pose proof Hrows as Hall. apply process_activities_Ok in Hall.
  split; [by apply Forall2_length in Hall|]. split.
  - intros i a Ha. by apply (Forall2_lookup_l _ _ _ _ _ Hall) in Ha.
  - intros self'. by apply process_activities_Ok.
Qed.
End Normalisation.

Lemma process_activities_defaults_witness :
  Forall2 (bare_activity (H := Ref.lib)) [sample_bare; sample_bare] [sample_date; sample_date]
  ∧ StravaDataFetcher.process_activities (H := Ref.lib) sample_fetcher [sample_bare; sample_bare]
    = Ok [default_row sample_date; default_row sample_date]
  ∧ StravaDataFetcher.process_activities (H := Ref.lib) sample_fetcher
      ([sample_bare; sample_bare] ++ [sample_malformed; sample_bare])
    = Raise TypeError.
Proof.
  assert (bare_activity (H := Ref.lib) sample_bare sample_date) as Hbare.
  { eexists _, _. split; [reflexivity|]. split; [vm_compute; reflexivity|].
    split; [vm_compute; reflexivity|]. intros k Hk.
    unfold optional_fields in Hk. set_unfold.
    destruct Hk as [->|[->|[->|[->|[->|[->|[->|[->|[]]]]]]]]]; vm_compute; reflexivity. }
  assert (Forall2 (bare_activity (H := Ref.lib)) [sample_bare; sample_bare]
                  [sample_date; sample_date]) as Hall by (by repeat constructor).
  split; [done|].
  destruct (process_activities_defaults (H := Ref.lib) sample_fetcher _ _ Hall)
    as [Hrows Habort].
  split; [done|]. apply Habort. vm_compute; reflexivity.
Defined.

(** C1, counterexample.  The second activity of the batch has a string as
    its distance: the call raises and no row is returned, not even for the
    first activity. *)
Lemma malformed_field_aborts_batch :
  StravaDataFetcher.process_activities (H := Ref.lib) sample_fetcher
    [sample_bare; sample_malformed] = Raise TypeError.
Proof. vm_compute; reflexivity. Qed.

Lemma unit_conversions_witness :
  ∃ row, StravaDataFetcher.process_activity (H := Ref.lib) (JObj sample_run) = Ok row
         ∧ Activity.distance_km row = 5%float
         ∧ Activity.moving_time_min row = 30%float
         ∧ Activity.average_speed_kmh row = 10.01%float.
Proof.
  apply (unit_conversions (H := Ref.lib) sample_run
           "2024-01-01T00:00:00Z" sample_date (JInt 0)); vm_compute; reflexivity.
Defined.

(** C7, counterexample.  The raw input of the example has no start date:
    the call raises before any conversion is made. *)
Lemma spec_example_raises :
  StravaDataFetcher.process_activities (H := Ref.lib) sample_fetcher [spec_example]
  = Raise ValueError.
Proof. vm_compute; reflexivity. Qed.

Lemma process_activities_rows_witness :
  StravaDataFetcher.process_activities (H := Ref.lib) sample_fetcher
    [sample_bare; JObj sample_run]
  = Ok [default_row sample_date;
        {| Activity.name := JStr "Unnamed Activity"; Activity.type := JStr "Unknown";
           Activity.start_date := sample_date; Activity.distance_km := 5;
           Activity.moving_time_min := 30; Activity.total_elevation_gain := JInt 0;
           Activity.average_speed_kmh := 10.01;
           Activity.average_heartrate := JNull; Activity.max_heartrate := JNull |}]
  ∧ ∀ self', StravaDataFetcher.process_activities (H := Ref.lib) self'
               [sample_bare; JObj sample_run]
             = StravaDataFetcher.process_activities (H := Ref.lib) sample_fetcher
                 [sample_bare; JObj sample_run].
Proof.
  assert (StravaDataFetcher.process_activities (H := Ref.lib) sample_fetcher
            [sample_bare; JObj sample_run]
          = Ok [default_row sample_date;
        {| Activity.name := JStr "Unnamed Activity"; Activity.type := JStr "Unknown";
           Activity.start_date := sample_date; Activity.distance_km := 5;
           Activity.moving_time_min := 30; Activity.total_elevation_gain := JInt 0;
           Activity.average_speed_kmh := 10.01;
           Activity.average_heartrate := JNull; Activity.max_heartrate := JNull |}])
    as Hrows by (vm_compute; reflexivity).
  split; [done|]. intros self'. rewrite Hrows.
  by apply (process_activities_rows (H := Ref.lib) sample_fetcher _ _ Hrows).
Defined.

(** ** Token handling *)

Section Tokens.
Context `{PythonLib}.
Import StravaDataFetcher.

(** The constructor of the authenticator leaves the world as
    [load_dotenv] leaves it. *)
Lemma authenticator_init_world w :
  StravaAuthenticator.__init__ w = ((StravaAuthenticator.__init__ w).1, after_dotenv w).
Proof.
  unfold StravaAuthenticator.__init__, M.bind, load_dotenv, M.modify, os_getenv,
    M.ret, M.raise, after_dotenv.
  by destruct (_ && _).
Qed.

Lemma exchange_token_run auth code w :
  StravaAuthenticator.exchange_token auth code w =
    (exchange_outcome (remote w (StravaAuthenticator.exchange_request auth code)),
     after_request (StravaAuthenticator.exchange_request auth code) w).
Proof.
  unfold StravaAuthenticator.exchange_token, M.bind, requests_send, after_request.
  destruct (remote w _) as [response|msg]; [|done]. simpl.
  by destruct (status_code response =? 200)%Z.
Qed.

(** What one call of [_refresh_token] does, case by case. *)
Lemma refresh_token_run self w :
  _refresh_token (self, w) =
    if in_package w then
      match (StravaAuthenticator.__init__ w).1 with
      | Raise e => (Raise e, (self, after_dotenv w))
      | Ok auth =>
          match py_getitem (tokens self) "refresh_token" with
          | Raise e => (Raise e, (self, after_dotenv w))
          | Ok rt =>
              let request := StravaAuthenticator.exchange_request auth rt in
              let w1 := after_request request (after_dotenv w) in
              match exchange_outcome (remote w request) with
              | Raise e => (Raise e, (self, w1))
              | Ok new_tokens =>
                  match new_token_set new_tokens with
                  | Raise e => (Raise e, (self, w1))
                  | Ok t' => (Ok tt, ({| tokens := t' |}, after_persist t' w1))
                  end
              end
          end
      end
    else (Raise ImportError, (self, w)).
Proof.
  unfold _refresh_token, M.bind at 1, M.on_world at 1, import_auth_script.
  destruct (in_package w); [|done].
  unfold M.bind at 1, M.on_world at 1.
  pose proof (authenticator_init_world w) as Hinit.
  destruct (StravaAuthenticator.__init__ w) as [[auth|e] w0];
    simpl in Hinit; injection Hinit as ->; simpl; [|done].
  unfold M.bind at 1, M.self at 1. unfold M.bind at 1, M.lift at 1.
  destruct (py_getitem (tokens self) "refresh_token") as [rt|e]; [|done].
  unfold M.bind at 1, M.on_world at 1. rewrite exchange_token_run. cbn zeta.
  destruct (exchange_outcome _) as [new_tokens|e]; [|done].
  unfold new_token_set, M.bind, M.lift.
  destruct (py_getitem new_tokens "access_token") as [a|e]; [|done].
  destruct (py_getitem new_tokens "refresh_token") as [r|e]; [|done].
  destruct (py_getitem new_tokens "expires_at") as [x|e]; [|done].
  reflexivity.
Qed.

(** A refresh that raises leaves the token set and the files as they
    were. *)
Lemma refresh_token_Raise self w e self' w' :
  _refresh_token (self, w) = (Raise e, (self', w')) →
  self' = self ∧ files w' = files w.
Proof.
  rewrite refresh_token_run. cbn zeta. unfold after_request.
  repeat case_match; intros ?; by simplify_eq/=.
Qed.

Lemma refresh_token_Ok self w self' w' :
  _refresh_token (self, w) = (Ok tt, (self', w')) →
  ∃ auth rt,
    in_package w = true
    ∧ (StravaAuthenticator.__init__ w).1 = Ok auth
    ∧ py_getitem (tokens self) "refresh_token" = Ok rt
    ∧ w' = after_persist (tokens self')
             (after_request (StravaAuthenticator.exchange_request auth rt)
                (after_dotenv w)).
Proof.
  rewrite refresh_token_run. cbn zeta.
  repeat case_match; intros ?; simplify_eq/=; eauto 10.
Qed.

(** What the constructor does, case by case. *)
Lemma init_run tokens_file w :
  __init__ tokens_file w =
    match files w !! tokens_file with
    | None => (Raise (FileNotFoundError tokens_file), w)
    | Some content =>
        match json_loads content with
        | None => (Raise JSONDecodeError, w)
        | Some t =>
            match py_getitem t "expires_at" with
            | Raise e => (Raise e, w)
            | Ok expires_at =>
                match py_float_ge (clock w) expires_at with
                | Raise e => (Raise e, w)
                | Ok true =>
                    match _refresh_token ({| tokens := t |}, w) with
                    | (Ok _, (self', w')) => (Ok self', w')
                    | (Raise e, (_, w')) => (Raise e, w')
                    end
                | Ok false => (Ok {| tokens := t |}, w)
                end
            end
        end
    end.
Proof.
  unfold __init__, M.bind at 1, json_load_file.
  destruct (files w !! tokens_file) as [content|]; [|done].
  destruct (json_loads content) as [t|]; [|done].
  unfold M.bind, datetime_now_timestamp, M.lift. simpl.
  destruct (py_getitem t "expires_at") as [expires_at|e]; [|done].
  destruct (py_float_ge (clock w) expires_at) as [[]|e]; done.
Qed.
End Tokens.

Section Credentials.
Context `{PythonLib}.
Import StravaDataFetcher.

(** C2.  Let the credential file hold a token set [t] whose [expires_at]
    is [e].  If the clock has not reached [e], construction returns [t]
    unchanged and the world is untouched: no request is sent.  If the
    clock has reached [e], construction goes into [_refresh_token], whose
    first statement is a relative import.  In a module that was imported
    at top level, as [dash.py] imports it, the import raises
    [ImportError]: construction raises with the world untouched, so no
    exchange is made and nothing is returned.  In a module imported as part
    of a package, a construction that returns has sent exactly one
    request, the token exchange for the stored refresh token, and it does
    return with the exchanged token set when the service grants the
    exchange. *)
Theorem init_refresh_needs_package tokens_file w content t e (expired : bool) :
  files w !! tokens_file = Some content →
  json_loads content = Some t →
  py_getitem t "expires_at" = Ok e →
  py_float_ge (clock w) e = Ok expired →
  if expired then
    if in_package w then
      (∀ self' w', __init__ tokens_file w = (Ok self', w') →
         ∃ auth rt, py_getitem t "refresh_token" = Ok rt
                    ∧ sent w' = sent w ++ [StravaAuthenticator.exchange_request auth rt])
      ∧ (∀ auth rt response new_tokens t',
           (StravaAuthenticator.__init__ w).1 = Ok auth →
           py_getitem t "refresh_token" = Ok rt →
           remote w (StravaAuthenticator.exchange_request auth rt) = Responds response →
           status_code response = 200%Z →
           json_loads (text response) = Some new_tokens →
           new_token_set new_tokens = Ok t' →
           __init__ tokens_file w
           = (Ok {| tokens := t' |},
              after_persist t'
                (after_request (StravaAuthenticator.exchange_request auth rt)
                   (after_dotenv w))))
    else __init__ tokens_file w = (Raise ImportError, w)
  else __init__ tokens_file w = (Ok {| tokens := t |}, w).
Proof.
  intros Hfile Hload He Hge. rewrite init_run, Hfile, Hload, He, Hge.
  destruct expired; [|done].
  destruct (in_package w) eqn:Hpackage; [|by rewrite refresh_token_run, Hpackage].
  split.
  - intros self' w' Hrun.
    destruct (_refresh_token ({| tokens := t |}, w)) as [[[]|e'] [self'' w'']] eqn:Hrefresh;
      [|done].
    injection Hrun as -> ->.
    apply refresh_token_Ok in Hrefresh as (auth & rt & _ & _ & Hrt & ->).
    by exists auth, rt.
  - intros auth rt response new_tokens t' Hauth Hrt Hremote Hstatus Hjson Hnew.
    rewrite refresh_token_run, Hpackage, Hauth. simpl tokens. rewrite Hrt. cbn zeta.
    rewrite Hremote. unfold exchange_outcome, response_json.
    rewrite Hstatus, Hjson. simpl. by rewrite Hnew.
Qed.

(** C3.  When the service answers the token exchange with a status other
    than 200, [_refresh_token] raises the exception of [exchange_token];
    the token set of the object is the one it had and the files are the
    ones there were.  The same holds for a construction that finds the
    stored token set expired.  For the exchange to be made at all, the
    import that opens [_refresh_token] has succeeded. *)
Theorem refresh_rejected_changes_nothing self w auth rt response :
  in_package w = true →
  (StravaAuthenticator.__init__ w).1 = Ok auth →
  py_getitem (tokens self) "refresh_token" = Ok rt →
  remote w (StravaAuthenticator.exchange_request auth rt) = Responds response →
  status_code response ≠ 200%Z →
  let e := Exception ("Token exchange failed: " +:+ text response) in
  let w' := after_request (StravaAuthenticator.exchange_request auth rt)
              (after_dotenv w) in
  _refresh_token (self, w) = (Raise e, (self, w'))
  ∧ files w' = files w
  ∧ ∀ tokens_file content expires_at,
      files w !! tokens_file = Some content →
      json_loads content = Some (tokens self) →
      py_getitem (tokens self) "expires_at" = Ok expires_at →
      py_float_ge (clock w) expires_at = Ok true →
      __init__ tokens_file w = (Raise e, w').
Proof.
  intros Hpackage Hauth Hrt Hremote Hstatus e w'.
  assert (_refresh_token (self, w) = (Raise e, (self, w'))) as Hrefresh.
  { rewrite refresh_token_run, Hpackage, Hauth, Hrt. cbn zeta.
    rewrite Hremote. unfold exchange_outcome.
    by apply Z.eqb_neq in Hstatus as ->. }
  split; [done|]. split; [done|].
  intros tokens_file content expires_at Hfile Hload He Hge.
  rewrite init_run, Hfile, Hload, He, Hge.
  destruct self as [t]. simpl. by rewrite Hrefresh.
Qed.

(** The form [exchange_token] posts, for whatever it is given as
    [code]. *)
Lemma exchange_request_fields auth code :
  let request := StravaAuthenticator.exchange_request auth code in
  req_method request = POST
  ∧ req_url request = StravaAuthenticator.token_url
  ∧ req_data request !! "client_id" = Some (JStr (StravaAuthenticator.client_id auth))
  ∧ req_data request !! "client_secret"
    = Some (JStr (StravaAuthenticator.client_secret auth))
  ∧ req_data request !! "code" = Some code
  ∧ req_data request !! "grant_type" = Some (JStr "authorization_code")
  ∧ req_data request !! "refresh_token" = None.
Proof. by repeat split. Qed.

(** C5 (as amended).  Construction raises when the credential file is
    missing, when it does not parse, and when the document has no
    [expires_at]; in each case nothing else happens.  A document whose
    [expires_at] the clock has not reached is returned as the token set,
    whatever other fields it has. *)
Theorem init_load_outcomes tokens_file w :
  (files w !! tokens_file = None →
   __init__ tokens_file w = (Raise (FileNotFoundError tokens_file), w))
  ∧ (∀ content,
       files w !! tokens_file = Some content → json_loads content = None →
       __init__ tokens_file w = (Raise JSONDecodeError, w))
  ∧ (∀ content (m : gmap string json),
       files w !! tokens_file = Some content → json_loads content = Some (JObj m) →
       m !! "expires_at" = None →
       __init__ tokens_file w = (Raise (KeyError "expires_at"), w))
  ∧ (∀ content t e,
       files w !! tokens_file = Some content → json_loads content = Some t →
       py_getitem t "expires_at" = Ok e → py_float_ge (clock w) e = Ok false →
       __init__ tokens_file w = (Ok {| tokens := t |}, w)).
Proof.
  repeat split.
  - intros Hfile. by rewrite init_run, Hfile.
  - intros content Hfile Hload. by rewrite init_run, Hfile, Hload.
  - intros content m Hfile Hload Hm. rewrite init_run, Hfile, Hload. simpl.
    by rewrite Hm.
  - intros content t e Hfile Hload He Hge.
    by rewrite init_run, Hfile, Hload, He, Hge.
Qed.

(** What a successful refresh leaves in the credential file is the
    token set the object now holds. *)
Lemma refresh_persists self w self' w' :
  _refresh_token (self, w) = (Ok tt, (self', w')) →
  files w' !! "strava_tokens.json" = Some (json_dumps (tokens self')).
Proof.
  intros Hrun. apply refresh_token_Ok in Hrun as (auth & rt & _ & _ & _ & ->).
  apply lookup_insert_eq.
Qed.
End Credentials.


(** ** Fetching *)

Section Fetching.
Context `{PythonLib}.
Import StravaDataFetcher.

(** C6.  When the activities endpoint answers 200 with an empty list,
    [get_activities] returns the empty list and does not raise; the one
    thing it prints is the warning. *)
Theorem get_activities_empty self limit w headers response :
  bearer self = Ok headers →
  remote w (activities_request headers limit) = Responds response →
  status_code response = 200%Z →
  json_loads (text response) = Some (JList []) →
  get_activities self limit w
  = (Ok (JList []),
     with_stdout (stdout w ++ [Line no_activities])
       (after_request (activities_request headers limit) w)).
Proof.
  intros Hbearer Hremote Hstatus Hjson.
  unfold get_activities, M.bind at 1, M.lift at 1. rewrite Hbearer.
  unfold M.try_except, M.bind at 1, requests_send. rewrite Hremote, Hstatus. simpl.
  unfold M.bind at 1, M.lift, response_json. by rewrite Hjson.
Qed.

(** C8.  When the profile endpoint answers 200 with an object,
    [get_athlete_profile] returns a profile and does not raise: the name
    is the first and last name joined by a space and stripped, a missing
    name counting as the empty string, and each other field is the
    field of the answer, or [None] when the answer lacks it.  For an
    answer with first name Jane, last name Doe and no follower count the
    name is "Jane Doe" and [total_followers] is [None]. *)
Theorem get_athlete_profile_fields self w headers response (o : gmap string json) :
  bearer self = Ok headers →
  remote w (athlete_request headers) = Responds response →
  status_code response = 200%Z →
  json_loads (text response) = Some (JObj o) →
  ∃ profile,
    get_athlete_profile self w
    = (Ok profile, after_request (athlete_request headers) w)
    ∧ Athlete.name profile
      = str_strip (py_str (default (JStr "") (o !! "firstname")) +:+ " "
                   +:+ py_str (default (JStr "") (o !! "lastname")))
    ∧ Athlete.username profile = default JNull (o !! "username")
    ∧ Athlete.profile_image profile = default JNull (o !! "profile")
    ∧ Athlete.total_followers profile = default JNull (o !! "follower_count")
    ∧ Athlete.total_friends profile = default JNull (o !! "friend_count")
    ∧ (o !! "firstname" = Some (JStr "Jane") →
       o !! "lastname" = Some (JStr "Doe") →
       o !! "follower_count" = None →
       Athlete.name profile = "Jane Doe" ∧ Athlete.total_followers profile = JNull).
Proof.
  intros Hbearer Hremote Hstatus Hjson. eexists. split.
  - unfold get_athlete_profile, M.bind at 1, M.lift at 1. rewrite Hbearer.
    unfold M.try_except, M.bind at 1, requests_send. rewrite Hremote, Hstatus. simpl.
    unfold M.bind at 1, M.lift, response_json. rewrite Hjson. reflexivity.
  - simpl. do 5 (split; [reflexivity|]). intros Hfirst Hlast Hcount.
    by rewrite Hfirst, Hlast, Hcount.
Qed.
End Fetching.

(** ** The statements on examples *)

Lemma init_refresh_needs_package_witness :
  StravaDataFetcher.__init__ (H := Ref.lib) "strava_tokens.json" (dash_world late granting)
  = (Raise ImportError, dash_world late granting)
  ∧ StravaDataFetcher.__init__ (H := Ref.lib) "strava_tokens.json"
      (dash_world early granting)
    = (Ok sample_fetcher, dash_world early granting)
  ∧ StravaDataFetcher.__init__ (H := Ref.lib) "strava_tokens.json"
      (sample_world late granting)
    = (Ok {| StravaDataFetcher.tokens := fresh_tokens |},
       after_persist (H := Ref.lib) fresh_tokens
         (after_request (StravaAuthenticator.exchange_request sample_auth (JStr "r1"))
            (after_dotenv (sample_world late granting)))).
Proof.
  split; [|split].
  - refine (init_refresh_needs_package (H := Ref.lib) "strava_tokens.json"
              (dash_world late granting)
              (Ref.dumps (StravaDataFetcher.tokens sample_fetcher))
              (StravaDataFetcher.tokens sample_fetcher) (JInt 1700000000) true
              _ _ _ _); vm_compute; reflexivity.
  - refine (init_refresh_needs_package (H := Ref.lib) "strava_tokens.json"
              (dash_world early granting)
              (Ref.dumps (StravaDataFetcher.tokens sample_fetcher))
              (StravaDataFetcher.tokens sample_fetcher) (JInt 1700000000) false
              _ _ _ _); vm_compute; reflexivity.
  - refine (proj2 (init_refresh_needs_package (H := Ref.lib) "strava_tokens.json"
                     (sample_world late granting)
                     (Ref.dumps (StravaDataFetcher.tokens sample_fetcher))
                     (StravaDataFetcher.tokens sample_fetcher) (JInt 1700000000) true
                     _ _ _ _)
                  sample_auth (JStr "r1")
                  {| status_code := 200; text := Ref.dumps fresh_tokens |}
                  fresh_tokens fresh_tokens _ _ _ _ _ _); vm_compute; reflexivity.
Defined.

Lemma refresh_rejected_changes_nothing_witness :
  let w := sample_world late rejecting in
  let w' := after_request (StravaAuthenticator.exchange_request sample_auth (JStr "r1"))
              (after_dotenv w) in
  StravaDataFetcher._refresh_token (H := Ref.lib) (sample_fetcher, w)
  = (Raise (Exception "Token exchange failed: Authorization Error"), (sample_fetcher, w'))
  ∧ files w' = files w
  ∧ StravaDataFetcher.__init__ (H := Ref.lib) "strava_tokens.json" w
    = (Raise (Exception "Token exchange failed: Authorization Error"), w').
Proof.
  intros w w'.
  destruct (refresh_rejected_changes_nothing (H := Ref.lib) sample_fetcher w sample_auth
              (JStr "r1") {| status_code := 401; text := "Authorization Error" |})
    as (Hrefresh & Hfiles & Hinit);
    [first [vm_compute; reflexivity | discriminate]..|].
  split; [exact Hrefresh|]. split; [exact Hfiles|].
  apply (Hinit "strava_tokens.json"
           (Ref.dumps (StravaDataFetcher.tokens sample_fetcher)) (JInt 1700000000));
    vm_compute; reflexivity.
Defined.

(** C4, on an example.  The stored token set has expired and the service
    would grant a refresh.  The one request [_refresh_token] sends is a
    POST to the token endpoint with the client credentials, but its
    [grant_type] is [authorization_code], it has no [refresh_token] field,
    and the refresh token travels as [code]. *)
Theorem refresh_posts_authorization_code :
  let request := StravaAuthenticator.exchange_request sample_auth (JStr "r1") in
  sent (StravaDataFetcher._refresh_token (H := Ref.lib)
          (sample_fetcher, sample_world late granting)).2.2 = [request]
  ∧ req_method request = POST
  ∧ req_url request = "https://www.strava.com/oauth/token"
  ∧ req_data request !! "client_id" = Some (JStr "12345")
  ∧ req_data request !! "client_secret" = Some (JStr "s3cret")
  ∧ req_data request !! "grant_type" = Some (JStr "authorization_code")
  ∧ req_data request !! "refresh_token" = None
  ∧ req_data request !! "code" = Some (JStr "r1").
Proof. vm_compute. repeat split. Qed.

Lemma init_load_outcomes_witness :
  StravaDataFetcher.__init__ (H := Ref.lib) "missing.json" (sample_world early granting)
  = (Raise (FileNotFoundError "missing.json"), sample_world early granting)
  ∧ StravaDataFetcher.__init__ (H := Ref.lib) "strava_tokens.json"
      (with_files {[ "strava_tokens.json" := "{" ]} (sample_world early granting))
    = (Raise JSONDecodeError,
       with_files {[ "strava_tokens.json" := "{" ]} (sample_world early granting))
  ∧ StravaDataFetcher.__init__ (H := Ref.lib) "strava_tokens.json"
      (with_files {[ "strava_tokens.json" := "{}" ]} (sample_world early granting))
    = (Raise (KeyError "expires_at"),
       with_files {[ "strava_tokens.json" := "{}" ]} (sample_world early granting))
  ∧ StravaDataFetcher.__init__ (H := Ref.lib) "strava_tokens.json"
      (sample_world early granting)
    = (Ok sample_fetcher, sample_world early granting).
Proof.
  split; [|split; [|split]].
  - apply (init_load_outcomes (H := Ref.lib)). vm_compute; reflexivity.
  - apply (proj1 (proj2 (init_load_outcomes (H := Ref.lib) _ _)) "{"); vm_compute; reflexivity.
  - apply (proj1 (proj2 (proj2 (init_load_outcomes (H := Ref.lib) _ _))) "{}" ∅);
      vm_compute; reflexivity.
  - apply (proj2 (proj2 (proj2 (init_load_outcomes (H := Ref.lib) _ _)))
             (Ref.dumps (StravaDataFetcher.tokens sample_fetcher))
             (StravaDataFetcher.tokens sample_fetcher) (JInt 1700000000));
      vm_compute; reflexivity.
Defined.

(** C5, counterexample.  The credential file holds a refresh token and an
    expiry that has not been reached, and no access token: construction
    succeeds. *)
Lemma init_accepts_missing_access_token :
  Ref.loads (Ref.dumps no_access_token) = Some no_access_token
  ∧ py_getitem no_access_token "access_token" = Raise (KeyError "access_token")
  ∧ StravaDataFetcher.__init__ (H := Ref.lib) "strava_tokens.json"
      world_without_access_token
    = (Ok {| StravaDataFetcher.tokens := no_access_token |}, world_without_access_token).
Proof. vm_compute. repeat split. Qed.



Lemma get_activities_empty_witness :
  let headers : gmap string string := {[ "Authorization" := "Bearer a1" ]} in
  StravaDataFetcher.get_activities (H := Ref.lib) sample_fetcher (JInt 30)
    (sample_world early granting)
  = (Ok (JList []),
     with_stdout [Line "Warning: No activities returned from Strava API"]
       (after_request (StravaDataFetcher.activities_request headers (JInt 30))
          (sample_world early granting))).
Proof.
  intros headers.
  apply (get_activities_empty (H := Ref.lib) sample_fetcher (JInt 30)
           (sample_world early granting) headers {| status_code := 200; text := "[]" |});
    vm_compute; reflexivity.
Defined.

Lemma get_athlete_profile_fields_witness :
  ∃ profile,
    (StravaDataFetcher.get_athlete_profile (H := Ref.lib) sample_fetcher
       (sample_world early granting)).1 = Ok profile
    ∧ Athlete.name profile = "Jane Doe"
    ∧ Athlete.username profile = JNull
    ∧ Athlete.total_followers profile = JNull.
Proof.
  destruct (get_athlete_profile_fields (H := Ref.lib) sample_fetcher
              (sample_world early granting) {[ "Authorization" := "Bearer a1" ]}
              {| status_code := 200; text := Ref.dumps jane_doe |}
              {[ "firstname" := JStr "Jane"; "lastname" := JStr "Doe" ]})
    as (profile & Hrun & _ & Huser & _ & _ & _ & Hjane); [vm_compute; reflexivity..|].
  exists profile. rewrite Hrun. split; [reflexivity|].
  destruct Hjane as [Hname Hfollowers]; [vm_compute; reflexivity..|].
  split; [exact Hname|]. split; [|exact Hfollowers].
  rewrite Huser. vm_compute. reflexivity.
Defined.


(** * Further properties of the code *)

(** ** Strings *)

Lemma rev_app_append (s acc : string) : String.rev_app s acc = String.rev s +:+ acc.
Proof.
  unfold String.rev. revert acc.
  induction s as [|a s IH]; intros acc; [done|]. simpl.
  rewrite (IH (String a acc)), (IH (String a "")), append_assoc. done.
Qed.

Lemma rev_cons (a : ascii) (s : string) :
  String.rev (String a s) = String.rev s +:+ String a "".
Proof. unfold String.rev at 1. simpl. apply rev_app_append. Qed.

Lemma rev_append (s1 s2 : string) :
  String.rev (s1 +:+ s2) = String.rev s2 +:+ String.rev s1.
Proof.
  induction s1 as [|a s1 IH].
  - by rewrite append_nil_r.
  - by rewrite append_cons, !rev_cons, IH, append_assoc.
Qed.

Lemma rev_rev (s : string) : String.rev (String.rev s) = s.
Proof.
  induction s as [|a s IH]; [done|].
  by rewrite rev_cons, rev_append, IH.
Qed.

(** What [strip_front] returns is the end of what it is given, and does
    not start with a one-byte whitespace character. *)
Lemma strip_front_spec fwd n :
  ∀ s, String.length s ≤ n →
       (∃ p, s = p +:+ strip_front fwd s)
       ∧ ∀ a rest, strip_front fwd s = String a rest → space1 (N_of_ascii a) = false.
Proof.
  induction n as [|n IH]; intros s Hn.
  { destruct s; [|simpl in Hn; lia]. split; [by exists ""|done]. }
  destruct s as [|a s1]; [split; [by exists ""|done]|].
  simpl in Hn. simpl.
  destruct (space1 (N_of_ascii a)) eqn:Ha.
  { destruct (IH s1 ltac:(lia)) as [[p Hp] Hhead]. split; [|done].
    exists (String a p). by rewrite append_cons, <- Hp. }
  destruct s1 as [|b s2]; [split; [by exists ""|by intros ? ? [= <- <-]]|].
  simpl in Hn.
  destruct (if fwd then space2 _ _ else space2 _ _).
  { destruct (IH s2 ltac:(lia)) as [[p Hp] Hhead]. split; [|done].
    exists (String a (String b p)). by rewrite !append_cons, <- Hp. }
  destruct s2 as [|c s3]; [split; [by exists ""|by intros ? ? [= <- <-]]|].
  simpl in Hn.
  destruct (if fwd then space3 _ _ _ else space3 _ _ _).
  { destruct (IH s3 ltac:(lia)) as [[p Hp] Hhead]. split; [|done].
    exists (String a (String b (String c p))). by rewrite !append_cons, <- Hp. }
  split; [by exists ""|by intros ? ? [= <- <-]].
Qed.

(** A stripped string neither starts nor ends with a one-byte whitespace
    character. *)
Lemma str_strip_ends s :
  (∀ a rest, str_strip s = String a rest → space1 (N_of_ascii a) = false)
  ∧ (∀ a rest, String.rev (str_strip s) = String a rest → space1 (N_of_ascii a) = false).
Proof.
  unfold str_strip.
  set (t := strip_front true s).
  destruct (strip_front_spec true (String.length s) s ltac:(lia)) as [_ Ht].
  destruct (strip_front_spec false (String.length (String.rev t)) (String.rev t) ltac:(lia))
    as [[p Hp] Hy].
  set (y := strip_front false (String.rev t)) in *.
  split.
  - intros a rest Hrev.
    assert (t = String.rev y +:+ String.rev p) as Hsplit.
    { by rewrite <- rev_append, <- Hp, rev_rev. }
    rewrite Hrev, append_cons in Hsplit. by eapply Ht.
  - intros a rest. rewrite rev_rev. apply Hy.
Qed.

Section MoreProfile.
Context `{PythonLib}.
Import StravaDataFetcher.

(** X17.  The name of a profile never starts or ends with a space, a tab
    or another one-byte whitespace character, whatever the answer holds;
    and it is empty when both names are missing or empty. *)
Theorem athlete_name_is_stripped athlete profile :
  athlete_of athlete = Ok profile →
  (∀ a rest, Athlete.name profile = String a rest → space1 (N_of_ascii a) = false)
  ∧ (∀ a rest, String.rev (Athlete.name profile) = String a rest
               → space1 (N_of_ascii a) = false)
  ∧ (py_get athlete "firstname" (JStr "") = Ok (JStr "") →
     py_get athlete "lastname" (JStr "") = Ok (JStr "") →
     Athlete.name profile = "").
Proof.
  unfold athlete_of. intros Hp. inv_binds. injection Hp as <-. simpl.
  split; [apply str_strip_ends|]. split; [apply str_strip_ends|].
  intros Hf Hl. rewrite Hf in *. rewrite Hl in *. by simplify_eq.
Qed.
End MoreProfile.

Section MoreProcessing.
Context `{PythonLib}.
Import StravaDataFetcher.

(** X1.  The loop that builds [processed_data], the list handed to
    [pd.DataFrame]: over a batch made of two batches it adds, to the rows
    it started with, the rows of the first followed by the rows of the
    second, and it gets through exactly when it gets through both. *)
Theorem process_loop_app (first second : list json) acc rows :
  process_loop acc (first ++ second) = Ok rows
  ↔ ∃ rows1 rows2,
      rows = acc ++ rows1 ++ rows2
      ∧ process_loop [] first = Ok rows1
      ∧ process_loop [] second = Ok rows2.
Proof.
  rewrite process_loop_Ok. split.
  - intros (rows' & -> & Hall).
    apply Forall2_app_inv_l in Hall as (rows1 & rows2 & H1 & H2 & ->).
    exists rows1, rows2. split; [done|]. rewrite !process_loop_Ok.
    split; eexists; (split; [reflexivity|done]).
  - intros (rows1 & rows2 & -> & H1 & H2).
    apply process_loop_Ok in H1 as (rows1' & -> & H1).
    apply process_loop_Ok in H2 as (rows2' & -> & H2).
    exists (rows1' ++ rows2'). split; [done|]. by apply Forall2_app.
Qed.

(** X2.  [process_activities] raises exactly when some activity raises
    while all activities before it are processed; the exception is that of
    this first failing activity, and what follows it is not looked at. *)
Theorem process_activities_first_failure self activities e :
  process_activities self activities = Raise e
  ↔ ∃ before a after,
      activities = before ++ a :: after
      ∧ Forall (λ a', is_Ok (process_activity a') = true) before
      ∧ process_activity a = Raise e.
Proof. apply process_loop_Raise. Qed.
End MoreProcessing.

Section MoreFields.
Context `{PythonLib}.
Import StravaDataFetcher.

(** An activity is processed exactly when its start date parses and each
    of its four arithmetic operations goes through. *)
Lemma process_activity_Ok_iff (m : gmap string json) :
  is_Ok (process_activity (JObj m)) = true
  ↔ (∃ s d, default (JStr "") (m !! "start_date") = JStr s
            ∧ fromisoformat (str_replace "Z" "+00:00" s) = Some d)
    ∧ is_Ok (py_truediv (default (JInt 0) (m !! "distance")) 1000) = true
    ∧ is_Ok (py_truediv (default (JInt 0) (m !! "moving_time")) 60) = true
    ∧ is_Ok (py_round2 (default (JInt 0) (m !! "total_elevation_gain"))) = true
    ∧ is_Ok (py_mul_float (default (JInt 0) (m !! "average_speed")) 3.6) = true.
Proof.
  unfold process_activity, py_get. simpl.
  destruct (default (JStr "") (m !! "start_date")) as [| | | |s| |] eqn:Hs; simpl;
    try (split; [discriminate | by intros [(s' & d & [=] & _) _]]).
  unfold datetime_fromisoformat.
  destruct (fromisoformat (str_replace "Z" "+00:00" s)) as [d|] eqn:Hd; simpl.
  - destruct (py_truediv _ 1000); simpl; [|naive_solver].
    destruct (py_truediv _ 60); simpl; [|naive_solver].
    destruct (py_round2 _); simpl; [|naive_solver].
    destruct (py_mul_float _ _); simpl; naive_solver.
  - split; [discriminate|]. intros [(s' & d & [= <-] & Hd') _]. congruence.
Qed.

(** X3.  An optional field may be left out: if an activity is processed,
    the same activity without one of its optional fields is processed
    too. *)
Theorem missing_optional_field_is_harmless (m : gmap string json) k :
  k ∈ optional_fields →
  is_Ok (process_activity (JObj m)) = true →
  is_Ok (process_activity (JObj (delete k m))) = true.
Proof.
  intros Hk. rewrite !process_activity_Ok_iff.
  intros (Hdate & Hdistance & Htime & Hgain & Hspeed).
  unfold optional_fields in Hk. set_unfold.
  destruct Hk as [->|[->|[->|[->|[->|[->|[->|[->|[]]]]]]]]];
    rewrite ?lookup_delete_eq, ?lookup_delete_ne by done;
    repeat split; try done; vm_compute; reflexivity.
Qed.

(** X4.  Floats never make the processing fail: an activity whose start
    date parses and whose numeric fields are each missing or a float
    (NaN and the infinities included) is processed. *)
Theorem float_fields_never_abort (m : gmap string json) s d :
  m !! "start_date" = Some (JStr s) →
  fromisoformat (str_replace "Z" "+00:00" s) = Some d →
  (∀ k, k ∈ numeric_fields → m !! k = None ∨ ∃ f, m !! k = Some (JFloat f)) →
  ∃ row, process_activity (JObj m) = Ok row ∧ Activity.start_date row = d.
Proof.
  intros Hs Hd Hfields.
  assert (∀ k, k ∈ numeric_fields →
               default (JInt 0) (m !! k) = JInt 0
               ∨ ∃ f, default (JInt 0) (m !! k) = JFloat f) as Hdefault.
  { intros k Hk. destruct (Hfields k Hk) as [->|[f ->]]; eauto. }
  unfold process_activity, py_get. simpl. rewrite Hs. simpl.
  unfold datetime_fromisoformat. rewrite Hd. simpl.
  destruct (Hdefault "distance") as [->|[f1 ->]]; [unfold numeric_fields; set_solver|..];
  destruct (Hdefault "moving_time") as [->|[f2 ->]]; try (unfold numeric_fields; set_solver);
  destruct (Hdefault "total_elevation_gain") as [->|[f3 ->]];
    try (unfold numeric_fields; set_solver);
  destruct (Hdefault "average_speed") as [->|[f4 ->]];
    try (unfold numeric_fields; set_solver);
  eexists; (split; [reflexivity|reflexivity]).
Qed.
End MoreFields.

(** X5.  The start date is handed to the parser with every [Z] replaced
    by [+00:00]: no [Z] is left wherever it stood, a date without [Z] is
    handed over unchanged, and a date that ends in its only [Z] ends in
    [+00:00] instead. *)
Theorem start_date_without_Z s :
  lacks "Z" (str_replace "Z" "+00:00" s) = true
  ∧ (lacks "Z" s = true →
     str_replace "Z" "+00:00" s = s
     ∧ str_replace "Z" "+00:00" (s +:+ "Z") = s +:+ "+00:00").
Proof.
  split.
  - induction s as [|a s IH]; [done|]. simpl.
    destruct (Ascii.eqb a "Z") eqn:Ha; simpl; [done|]. by rewrite Ha, IH.
  - induction s as [|a s IH]; [done|]. simpl.
    destruct (Ascii.eqb a "Z") eqn:Ha; simpl; [done|].
    intros Hs. destruct (IH Hs) as [-> ->]. done.
Qed.

Section MoreTokens.
Context `{PythonLib}.
Import StravaDataFetcher.

(** X6.  [StravaAuthenticator()] changes the world in one way:
    [load_dotenv] adds to the environment the variables of the [.env]
    file that are not set yet, a variable that is set keeping its value.
    It returns an authenticator exactly when the three variables are then
    set and not empty, its fields being their values, and raises
    [ValueError] otherwise. *)
Theorem authenticator_needs_all_three w :
  (StravaAuthenticator.__init__ w).2 = after_dotenv w
  ∧ (∀ name,
       environ (after_dotenv w) !! name
       = match environ w !! name with
         | Some value => Some value
         | None => dotenv w !! name
         end)
  ∧ (∀ auth,
       (StravaAuthenticator.__init__ w).1 = Ok auth
       ↔ environ (after_dotenv w) !! "STRAVA_CLIENT_ID"
         = Some (StravaAuthenticator.client_id auth)
         ∧ environ (after_dotenv w) !! "STRAVA_CLIENT_SECRET"
           = Some (StravaAuthenticator.client_secret auth)
         ∧ environ (after_dotenv w) !! "STRAVA_REDIRECT_URI"
           = Some (StravaAuthenticator.redirect_uri auth)
         ∧ StravaAuthenticator.client_id auth ≠ ""
         ∧ StravaAuthenticator.client_secret auth ≠ ""
         ∧ StravaAuthenticator.redirect_uri auth ≠ "")
  ∧ ((StravaAuthenticator.__init__ w).1 = Raise ValueError
     ∨ ∃ auth, (StravaAuthenticator.__init__ w).1 = Ok auth).
Proof.
  split; [by rewrite authenticator_init_world|].
  split.
  { intros name. unfold after_dotenv. cbn [environ with_environ].
    rewrite lookup_union. by destruct (environ w !! name), (dotenv w !! name). }
  unfold StravaAuthenticator.__init__, M.bind, load_dotenv, M.modify, os_getenv,
    M.ret, M.raise, StravaAuthenticator.truthy.
  fold (after_dotenv w). generalize (environ (after_dotenv w)). intros env.
  destruct (env !! "STRAVA_CLIENT_ID") as [i|]; simpl.
  2: { split; [|by left]. intros auth. split; [discriminate|]. by intros [[=] _]. }
  destruct (env !! "STRAVA_CLIENT_SECRET") as [s|]; simpl.
  2: { rewrite andb_false_r. simpl. split; [|by left].
       intros auth. split; [discriminate|]. by intros (_ & [=] & _). }
  destruct (env !! "STRAVA_REDIRECT_URI") as [r|]; simpl.
  2: { rewrite andb_false_r. simpl. split; [|by left].
       intros auth. split; [discriminate|]. by intros (_ & _ & [=] & _). }
  destruct (String.eqb_spec i "") as [->|Hi]; simpl.
  { split; [|by left]. intros auth. split; [discriminate|].
    intros ([= <-] & _ & _ & ? & _). done. }
  destruct (String.eqb_spec s "") as [->|Hs]; simpl.
  { split; [|by left]. intros auth. split; [discriminate|].
    intros (_ & [= <-] & _ & _ & ? & _). done. }
  destruct (String.eqb_spec r "") as [->|Hr]; simpl.
  { split; [|by left]. intros auth. split; [discriminate|].
    intros (_ & _ & [= <-] & _ & _ & ?). done. }
  split; [|right; eauto]. intros [i' s' r']. simpl. split.
  - by intros [= <- <- <-].
  - by intros ([= <-] & [= <-] & [= <-] & _).
Qed.

(** X7.  [exchange_token] sends its request once, whatever happens next,
    and changes nothing else; it returns a document exactly when the
    service answers 200 with a body that parses to this document. *)
Theorem exchange_token_Ok_iff auth code w :
  (StravaAuthenticator.exchange_token auth code w).2
  = after_request (StravaAuthenticator.exchange_request auth code) w
  ∧ ∀ v, (StravaAuthenticator.exchange_token auth code w).1 = Ok v
         ↔ ∃ response,
             remote w (StravaAuthenticator.exchange_request auth code) = Responds response
             ∧ status_code response = 200%Z
             ∧ json_loads (text response) = Some v.
Proof.
  rewrite exchange_token_run. split; [done|]. intros v. simpl.
  unfold exchange_outcome, response_json.
  destruct (remote w _) as [response|msg].
  - destruct (Z.eqb_spec (status_code response) 200) as [Hs|Hs].
    + destruct (json_loads (text response)) as [v'|] eqn:Hv; split.
      * intros [= <-]. eauto.
      * intros (response' & [= <-] & _ & Hv'). congruence.
      * discriminate.
      * intros (response' & [= <-] & _ & Hv'). congruence.
    + split; [discriminate|]. by intros (response' & [= <-] & ? & _).
  - split; [discriminate|]. by intros (response' & [=] & _).
Qed.

(** X8.  Whatever makes [_refresh_token] raise - the import failing,
    credentials missing from the environment, no refresh token, the
    service unreachable or refusing, a body that does not parse, an
    answer that lacks a field - the token set of the object and all
    files are as before, nothing is printed, and at most one request has
    been sent. *)
Theorem refresh_failure_changes_nothing self w e self' w' :
  _refresh_token (self, w) = (Raise e, (self', w')) →
  self' = self
  ∧ files w' = files w
  ∧ stdout w' = stdout w
  ∧ (sent w' = sent w ∨ ∃ request, sent w' = sent w ++ [request]).
Proof.
  rewrite refresh_token_run. cbn zeta. unfold after_request.
  repeat case_match; intros ?; simplify_eq/=; eauto 10.
Qed.

(** X9.  After a successful [_refresh_token] the token set is a dictionary
    of exactly three entries, the [access_token], [refresh_token] and
    [expires_at] of the service's answer, other entries of the answer
    being dropped; it is what [strava_tokens.json] now holds, and no
    other file has changed. *)
Theorem refresh_keeps_three_fields self w self' w' :
  _refresh_token (self, w) = (Ok tt, (self', w')) →
  ∃ (m : gmap string json) auth rt response new_tokens,
    tokens self' = JObj m
    ∧ dom m = {[ "access_token"; "refresh_token"; "expires_at" ]}
    ∧ remote w (StravaAuthenticator.exchange_request auth rt) = Responds response
    ∧ json_loads (text response) = Some new_tokens
    ∧ (∀ k, k ∈ dom m → py_getitem new_tokens k = py_getitem (JObj m) k)
    ∧ files w' = <["strava_tokens.json" := json_dumps (JObj m)]> (files w).
Proof.
  rewrite refresh_token_run. cbn zeta.
  destruct (in_package w); [|done].
  destruct (StravaAuthenticator.__init__ w).1 as [auth|]; [|done].
  destruct (py_getitem (tokens self) "refresh_token") as [rt|]; [|done].
  destruct (exchange_outcome _) as [new_tokens|] eqn:Hout; [|done].
  destruct (new_token_set new_tokens) as [t'|] eqn:Hnew; [|done].
  intros [= <- <-].
  unfold exchange_outcome in Hout.
  destruct (remote w _) as [response|] eqn:Hremote; [|done].
  destruct (status_code response =? 200)%Z; [|done].
  unfold response_json in Hout.
  destruct (json_loads (text response)) as [v|] eqn:Hv; [|done].
  injection Hout as ->.
  unfold new_token_set in Hnew.
  destruct (py_getitem new_tokens "access_token") as [a|] eqn:Ha; [|done].
  destruct (py_getitem new_tokens "refresh_token") as [r|] eqn:Hr; [|done].
  destruct (py_getitem new_tokens "expires_at") as [x|] eqn:Hx; [|done].
  simpl in Hnew. injection Hnew as <-.
  eexists _, auth, rt, response, new_tokens. split; [done|].
  split; [rewrite !dom_insert_L, dom_singleton_L; set_solver|].
  split; [done|]. split; [done|]. split; [|done].
  intros k. rewrite !dom_insert_L, dom_singleton_L. set_unfold.
  intros [->|[->| ->]]; simpl.
  - by rewrite Ha, lookup_insert_eq.
  - rewrite Hr, lookup_insert_ne, lookup_insert_eq; done.
  - rewrite Hx, lookup_insert_ne, lookup_insert_ne, lookup_singleton_eq; done.
Qed.

(** X10.  Construction never prints.  It makes no call of [requests], or
    one, a POST to the token endpoint.  The one file it can write is
    [strava_tokens.json], whatever file it was asked to read, and it
    writes nothing when it raises.  It leaves the environment as it was,
    or as [load_dotenv] leaves it. *)
Theorem init_footprint tokens_file w :
  let w' := (__init__ tokens_file w).2 in
  stdout w' = stdout w
  ∧ (environ w' = environ w ∨ environ w' = environ w ∪ dotenv w)
  ∧ (sent w' = sent w
     ∨ ∃ request, sent w' = sent w ++ [request]
                  ∧ req_method request = POST
                  ∧ req_url request = StravaAuthenticator.token_url)
  ∧ (files w' = files w
     ∨ ∃ t, (__init__ tokens_file w).1 = Ok {| tokens := t |}
            ∧ files w' = <["strava_tokens.json" := json_dumps t]> (files w)).
Proof.
  rewrite init_run.
  destruct (files w !! tokens_file) as [content|]; [|by repeat split; eauto].
  destruct (json_loads content) as [t|]; [|by repeat split; eauto].
  destruct (py_getitem t "expires_at") as [x|]; [|by repeat split; eauto].
  destruct (py_float_ge (clock w) x) as [[]|]; [|by repeat split; eauto..].
  rewrite refresh_token_run. cbn zeta. unfold after_request, after_persist, after_dotenv.
  repeat case_match; simplify_eq/=;
    (split; [done|]); (split; [by eauto|]); (split; [by eauto 10|]); by eauto.
Qed.

(** X11.  Construction raises [TypeError], and does nothing else, when the
    credential file holds a document that is not an object, or an object
    whose [expires_at] is not a number: a timestamp written as a string
    is not accepted. *)
Theorem init_rejects_untyped_expiry tokens_file w content t :
  files w !! tokens_file = Some content →
  json_loads content = Some t →
  match t with
  | JObj m =>
      match m !! "expires_at" with
      | Some (JNull | JStr _ | JList _ | JObj _) => True
      | _ => False
      end
  | _ => True
  end →
  __init__ tokens_file w = (Raise TypeError, w).
Proof.
  intros Hfile Hload Ht. rewrite init_run, Hfile, Hload.
  destruct t as [| | | | | |m]; try done. simpl.
  destruct (m !! "expires_at") as [[]|]; done.
Qed.
End MoreTokens.

Section MoreFetching.
Context `{PythonLib}.
Import StravaDataFetcher.

Lemma report_run {A} what e w :
  report (A := A) what e w = (Raise e, with_stdout (stdout w ++ [reported what e]) w).
Proof. unfold report, reported. by destruct (is_RequestException e). Qed.

Lemma get_activities_run self limit w :
  get_activities self limit w =
    match bearer self with
    | Raise e => (Raise e, w)
    | Ok headers =>
        let w1 := after_request (activities_request headers limit) w in
        match fetched (remote w (activities_request headers limit)) with
        | Raise e => (Raise e, with_stdout (stdout w ++ [reported "activities" e]) w1)
        | Ok activities =>
            (Ok activities,
             if py_bool activities then w1
             else with_stdout (stdout w ++ [Line no_activities]) w1)
        end
    end.
Proof.
  unfold get_activities, M.bind at 1, M.lift at 1.
  destruct (bearer self) as [headers|e]; [|done].
  unfold M.try_except, M.bind at 1, requests_send, fetched.
  destruct (remote w _) as [response|msg]; [|by rewrite report_run].
  fold (after_request (activities_request headers limit) w).
  destruct (status_code response =? 200)%Z; simpl; [|by rewrite report_run].
  unfold M.bind at 1, M.lift at 1.
  destruct (response_json response) as [activities|e]; [|by rewrite report_run].
  by destruct (py_bool activities).
Qed.

Lemma get_athlete_profile_run self w :
  get_athlete_profile self w =
    match bearer self with
    | Raise e => (Raise e, w)
    | Ok headers =>
        let w1 := after_request (athlete_request headers) w in
        match Res.bind (fetched (remote w (athlete_request headers))) athlete_of with
        | Raise e => (Raise e, with_stdout (stdout w ++ [reported "athlete profile" e]) w1)
        | Ok profile => (Ok profile, w1)
        end
    end.
Proof.
  unfold get_athlete_profile, M.bind at 1, M.lift at 1.
  destruct (bearer self) as [headers|e]; [|done].
  unfold M.try_except, M.bind at 1, requests_send, fetched.
  destruct (remote w _) as [response|msg]; [|by rewrite report_run].
  fold (after_request (athlete_request headers) w).
  destruct (status_code response =? 200)%Z; simpl; [|by rewrite report_run].
  unfold M.bind at 1, M.lift.
  destruct (response_json response) as [profile|e]; simpl; [|by rewrite report_run].
  destruct (athlete_of profile); [done|by rewrite report_run].
Qed.

(** X12.  Without an access token in the token set, [get_activities] and
    [get_athlete_profile] raise [KeyError] before anything happens: no
    request is sent and nothing is printed, the lookup being outside the
    [try]. *)
Theorem fetch_without_access_token self (m : gmap string json) limit w :
  tokens self = JObj m →
  m !! "access_token" = None →
  get_activities self limit w = (Raise (KeyError "access_token"), w)
  ∧ get_athlete_profile self w = (Raise (KeyError "access_token"), w).
Proof.
  intros Ht Hm. rewrite get_activities_run, get_athlete_profile_run.
  unfold bearer. rewrite Ht. simpl. by rewrite Hm.
Qed.

(** X13.  Once the header is built, [get_activities] calls
    [requests.get] exactly once, for the activities endpoint, with the
    limit as [per_page] and the access token as bearer, whatever the token
    is and whatever comes of the call; it makes no other call of
    [requests] and never touches a file. *)
Theorem get_activities_calls_requests_once self limit w access_token :
  py_getitem (tokens self) "access_token" = Ok access_token →
  let w' := (get_activities self limit w).2 in
  ∃ request,
    sent w' = sent w ++ [request]
    ∧ req_method request = GET
    ∧ req_url request = "https://www.strava.com/api/v3/athlete/activities"
    ∧ req_params request = {[ "per_page" := limit ]}
    ∧ req_headers request = {[ "Authorization" := "Bearer " +:+ py_str access_token ]}
    ∧ files w' = files w.
Proof.
  intros Ht. rewrite get_activities_run. unfold bearer. rewrite Ht. simpl.
  eexists. destruct (fetched _) as [activities|e]; simpl;
    [destruct (py_bool activities)|]; by repeat split.
Qed.

(** X14.  When [get_activities] raises after the header is built, it has
    printed exactly one line, which reports the exception it raises:
    under "Network Error" for an unreachable service or a body that is not
    JSON, under "Unexpected error fetching activities" for an answer whose
    status is not 200. *)
Theorem get_activities_failure_is_reported self limit w headers e w' :
  bearer self = Ok headers →
  get_activities self limit w = (Raise e, w') →
  stdout w' = stdout w ++ [reported "activities" e]
  ∧ ((∃ msg, remote w (activities_request headers limit) = Unreachable msg
             ∧ e = ConnectionError msg
             ∧ reported "activities" e = LineExn "Network Error: " e)
     ∨ (∃ response, remote w (activities_request headers limit) = Responds response
                    ∧ status_code response ≠ 200%Z
                    ∧ e = http_error response
                    ∧ reported "activities" e
                      = LineExn "Unexpected error fetching activities: " e)
     ∨ (∃ response, remote w (activities_request headers limit) = Responds response
                    ∧ status_code response = 200%Z
                    ∧ json_loads (text response) = None
                    ∧ e = InvalidJSONError
                    ∧ reported "activities" e = LineExn "Network Error: " e)).
Proof.
  intros Hb. rewrite get_activities_run, Hb. cbn zeta.
  unfold fetched, response_json.
  destruct (remote w _) as [response|msg].
  - destruct (Z.eqb_spec (status_code response) 200) as [Hs|Hs].
    + destruct (json_loads (text response)) as [v|] eqn:Hv; [done|].
      intros [= <- <-]. split; [done|]. right. right. by exists response.
    + intros [= <- <-]. split; [done|]. right. left. by exists response.
  - intros [= <- <-]. split; [done|]. left. by exists msg.
Qed.

(** X15.  What [get_activities] returns is the body of a 200 answer,
    decoded and otherwise untouched; the warning is printed exactly when
    this value is falsy - an empty list, but also an empty object, [null],
    zero or an empty string - and nothing else is ever printed on
    success. *)
Theorem get_activities_returns_body self limit w headers v w' :
  bearer self = Ok headers →
  get_activities self limit w = (Ok v, w') →
  (∃ response, remote w (activities_request headers limit) = Responds response
               ∧ status_code response = 200%Z
               ∧ json_loads (text response) = Some v)
  ∧ stdout w' = stdout w ++ (if py_bool v then [] else [Line no_activities]).
Proof.
  intros Hb. rewrite get_activities_run, Hb. cbn zeta.
  unfold fetched, response_json.
  destruct (remote w _) as [response|msg]; [|done].
  destruct (Z.eqb_spec (status_code response) 200) as [Hs|Hs]; [|done].
  destruct (json_loads (text response)) as [v'|] eqn:Hv; [|done].
  intros [= <- <-]. split; [by exists response|].
  destruct (py_bool v'); simpl; [by rewrite app_nil_r|done].
Qed.

(** X16.  When the profile endpoint answers 200 with JSON that is not an
    object (a list, a string, [null]), [get_athlete_profile] raises
    [AttributeError] and prints it as an unexpected error; one request has
    been sent. *)
Theorem get_athlete_profile_needs_object self w headers response v :
  bearer self = Ok headers →
  remote w (athlete_request headers) = Responds response →
  status_code response = 200%Z →
  json_loads (text response) = Some v →
  (∀ m, v ≠ JObj m) →
  get_athlete_profile self w
  = (Raise AttributeError,
     with_stdout
       (stdout w ++ [LineExn "Unexpected error fetching athlete profile: " AttributeError])
       (after_request (athlete_request headers) w)).
Proof.
  intros Hb Hr Hs Hv Hm. rewrite get_athlete_profile_run, Hb. cbn zeta.
  rewrite Hr. unfold fetched, response_json. rewrite Hs, Hv. simpl.
  destruct v as [| | | | | |m]; try done. by destruct (Hm m).
Qed.
End MoreFetching.

(** ** The authorization script *)

Lemma prefix_nil (s : string) : String.prefix "" s = true.
Proof. by destruct s. Qed.

Lemma prefix_cons (a b : ascii) (s t : string) :
  String.prefix (String a s) (String b t) = Ascii.eqb a b && String.prefix s t.
Proof.
  simpl. destruct (ascii_dec a b) as [->|Hab].
  - by rewrite Ascii.eqb_refl.
  - by apply Ascii.eqb_neq in Hab as ->.
Qed.

(** Whether [sep] starts [u +:+ v] is decided inside [u] when [u] is at
    least as long as [sep]. *)
Lemma prefix_append_long (sep : string) :
  ∀ u v, String.length sep ≤ String.length u →
         String.prefix sep (u +:+ v) = String.prefix sep u.
Proof.
  induction sep as [|x sep IH]; intros u v Hlen; [by rewrite !prefix_nil|].
  destruct u as [|y u]; [simpl in Hlen; lia|].
  rewrite append_cons, !prefix_cons. simpl in Hlen. by rewrite IH by lia.
Qed.

(** A separator without [&] that starts [u +:+ t], where [t] is empty or
    starts with [&], starts [u]. *)
Lemma prefix_before_amp (sep : string) :
  ∀ u t, lacks "&" sep = true →
         (t = "" ∨ ∃ t', t = String "&" t') →
         String.prefix sep (u +:+ t) = String.prefix sep u.
Proof.
  induction sep as [|x sep IH]; intros u t Hsep Ht; [by rewrite !prefix_nil|].
  simpl in Hsep. apply andb_true_iff in Hsep as [Hx Hsep].
  destruct u as [|y u].
  - destruct Ht as [->|[t' ->]]; [done|].
    change ("" +:+ String "&" t') with (String "&" t').
    rewrite prefix_cons. apply negb_true_iff in Hx. by rewrite Hx.
  - rewrite append_cons, !prefix_cons. by rewrite IH.
Qed.

(** There are pieces after the first exactly when the separator
    occurs. *)
Lemma split_go_pieces (sep : string) :
  sep ≠ "" → ∀ s, (split_go sep 0 s).2 = [] ↔ occurs sep s = false.
Proof.
  intros Hsep. induction s as [|a s IH].
  - simpl. destruct sep; [done|]. simpl. done.
  - cbn [split_go occurs]. destruct (String.prefix sep (String a s)); simpl.
    + destruct (split_go sep (String.length sep - 1) s). simpl. split; discriminate.
    + destruct (split_go sep 0 s) as [piece pieces]. simpl in *. exact IH.
Qed.

(** Up to the first [&], or to the end when there is none. *)
Lemma split_amp_first (c : string) :
  lacks "&" c = true →
  (split_go "&" 0 c).1 = c
  ∧ ∀ t, (split_go "&" 0 (c +:+ String "&" t)).1 = c.
Proof.
  induction c as [|a c IH]; intros Hc.
  - split; [done|]. intros t. change ("" +:+ String "&" t) with (String "&" t).
    cbn [split_go]. by rewrite prefix_cons, Ascii.eqb_refl, prefix_nil.
  - simpl in Hc. apply andb_true_iff in Hc as [Ha Hc]. apply negb_true_iff in Ha.
    destruct (IH Hc) as [IH1 IH2]. split.
    + cbn [split_go]. rewrite prefix_cons, Ascii.eqb_sym, Ha. simpl.
      destruct (split_go "&" 0 c). simpl in *. by subst.
    + intros t. rewrite append_cons. cbn [split_go].
      rewrite prefix_cons, Ascii.eqb_sym, Ha. simpl.
      specialize (IH2 t). destruct (split_go "&" 0 (c +:+ String "&" t)).
      simpl in *. by subst.
Qed.

(** The piece that starts with [c], when the separator does not occur in
    [c] and what follows is empty or starts with [&]. *)
Lemma split_go_through (sep c t : string) :
  lacks "&" sep = true →
  occurs sep c = false →
  (t = "" ∨ ∃ t', t = String "&" t') →
  (split_go sep 0 (c +:+ t)).1 = c +:+ (split_go sep 0 t).1.
Proof.
  intros Hsep Hc Ht. induction c as [|a c IH]; [done|].
  cbn [occurs] in Hc. apply orb_false_iff in Hc as [Hp Hc].
  rewrite !append_cons. cbn [split_go].
  rewrite <- append_cons, (prefix_before_amp sep (String a c) t Hsep Ht), Hp.
  specialize (IH Hc).
  destruct (split_go sep 0 (c +:+ t)). simpl in *. by rewrite IH.
Qed.

(** The first piece, when the separator first occurs right after
    [pre]. *)
Lemma split_go_first (pre x : string) :
  occurs "code=" (pre +:+ "code") = false →
  split_go "code=" 0 (pre +:+ "code=" +:+ x)
  = (pre, let '(piece, pieces) := split_go "code=" 0 x in piece :: pieces).
Proof.
  induction pre as [|a pre IH]; intros Hpre.
  { change ("" +:+ "code=" +:+ x)
      with (String "c" (String "o" (String "d" (String "e" (String "=" x))))).
    cbn [split_go]. rewrite !prefix_cons, prefix_nil. reflexivity. }
  cbn [occurs] in Hpre. rewrite append_cons in Hpre.
  apply orb_false_iff in Hpre as [Hp Hpre].
  rewrite append_cons. cbn [split_go].
  assert (String.prefix "code=" (String a (pre +:+ "code=" +:+ x)) = false) as ->.
  { change (pre +:+ "code=" +:+ x) with (pre +:+ ("code" +:+ ("=" +:+ x))).
    rewrite <- append_assoc, <- append_cons, <- append_cons.
    rewrite prefix_append_long; [by rewrite append_cons|].
    rewrite append_cons. simpl. rewrite length_append. simpl. lia. }
  by rewrite (IH Hpre).
Qed.

(** Without [code=] in the line there is no piece 1. *)
Lemma code_of_without_code url :
  occurs "code=" url = false → code_of url = Raise IndexError.
Proof.
  intros Hocc. apply (split_go_pieces "code=" ltac:(done)) in Hocc.
  unfold code_of, str_split.
  destruct (split_go "code=" 0 url) as [piece pieces]. simpl in Hocc. by subst.
Qed.

(** X18.  The script finds no code in the pasted line exactly when
    [code=] does not occur in it; it then fails with [IndexError], and
    with nothing else ever. *)
Theorem code_of_IndexError url :
  (code_of url = Raise IndexError ↔ occurs "code=" url = false)
  ∧ ∀ e, code_of url = Raise e → e = IndexError.
Proof.
  unfold code_of, str_split.
  pose proof (split_go_pieces "code=" ltac:(done) url) as Hpieces.
  destruct (split_go "code=" 0 url) as [piece pieces]. simpl in Hpieces.
  destruct pieces as [|tail pieces]; simpl.
  - split; [|by intros e [= <-]]. split; [intros _; by apply Hpieces|done].
  - destruct (split_go "&" 0 tail) as [piece' pieces']. simpl.
    split; [|done]. split; [done|]. intros Hocc. by apply Hpieces in Hocc.
Qed.

(** X19.  From a line in which [code=] first occurs right after [pre],
    followed by a code that contains neither [&] nor [code=], the script
    extracts this code, whether the line ends there or goes on with
    [&]. *)
Theorem code_of_redirect pre c rest :
  occurs "code=" (pre +:+ "code") = false →
  occurs "code=" c = false →
  lacks "&" c = true →
  code_of (pre +:+ "code=" +:+ c) = Ok c
  ∧ code_of (pre +:+ "code=" +:+ c +:+ "&" +:+ rest) = Ok c.
Proof.
  intros Hpre Hocc Hamp. unfold code_of, str_split.
  destruct (split_amp_first c Hamp) as [Hend Hmore]. split.
  - rewrite (split_go_first pre c Hpre).
    pose proof (split_go_through "code=" c "" ltac:(done) Hocc ltac:(by left)) as Hc.
    cbn [split_go fst] in Hc. rewrite !append_nil_r in Hc.
    destruct (split_go "code=" 0 c) as [piece pieces]. simpl in *. subst piece.
    destruct (split_go "&" 0 c). simpl in *. by subst.
  - rewrite (split_go_first pre _ Hpre).
    pose proof (split_go_through "code=" c ("&" +:+ rest) ltac:(done) Hocc
                  ltac:(right; by exists rest)) as Hc.
    destruct (split_go "code=" 0 (c +:+ "&" +:+ rest)) as [piece pieces].
    simpl in Hc. cbn [py_index lookup list_lookup Res.bind]. simpl.
    assert (∃ t, piece = c +:+ String "&" t) as [t ->].
    { rewrite Hc. destruct (split_go "code=" 0 ("" +:+ rest)). simpl. eauto. }
    specialize (Hmore t). destruct (split_go "&" 0 (c +:+ String "&" t)).
    simpl in *. by subst.
Qed.

Section MoreScript.
Context `{PythonLib}.
Import StravaAuthenticator Script.

Lemma with_stdout_twice l l' w : with_stdout l (with_stdout l' w) = with_stdout l w.
Proof. reflexivity. Qed.

Lemma bind_print {A} s (k : unit → M (terminal * world) A) tty w :
  M.bind (print s) k (tty, w) = k tt (tty, with_stdout (stdout w ++ [Line s]) w).
Proof. reflexivity. Qed.

Lemma bind_open {A} url (k : unit → M (terminal * world) A) tty w :
  M.bind (webbrowser_open url) k (tty, w) = k tt (after_open url tty, w).
Proof. reflexivity. Qed.

Lemma bind_input {A} prompt (k : string → M (terminal * world) A) tty w :
  M.bind (input prompt) k (tty, w) =
    let w1 := with_stdout (stdout w ++ [Prompt prompt]) w in
    match stdin tty with
    | [] => (Raise EOFError, (tty, w1))
    | line :: _ => k line (after_read tty, w1)
    end.
Proof.
  unfold input, M.bind, M.on_world, console_print, M.modify, after_read.
  by destruct (stdin tty).
Qed.

(** What one call of [authenticate] does, case by case. *)
Lemma authenticate_run self tty w :
  authenticate self (tty, w) =
    let tty1 := after_open (get_authorization_url self) tty in
    let w1 := with_stdout (stdout w ++ instructions) w in
    match stdin tty with
    | [] => (Raise EOFError, (tty1, w1))
    | line :: _ =>
        match code_of line with
        | Raise e => (Raise e, (after_read tty1, w1))
        | Ok code =>
            let request := exchange_request self (JStr code) in
            match exchange_outcome (remote w request) with
            | Raise e => (Raise e, (after_read tty1, after_request request w1))
            | Ok tokens =>
                (new_token_set tokens, (after_read tty1, after_request request w1))
            end
        end
    end.
Proof.
  unfold authenticate, instructions. cbn zeta.
  rewrite bind_open, !bind_print, bind_input. cbn zeta.
  rewrite !with_stdout_twice. cbn [stdout with_stdout].
  rewrite <- !app_assoc. cbn [app].
  change (stdin (after_open (get_authorization_url self) tty)) with (stdin tty).
  destruct (stdin tty) as [|line rest]; [done|].
  unfold M.bind at 1, M.lift at 1.
  destruct (code_of line) as [code|e]; [|done].
  unfold M.bind at 1, M.on_world at 1. rewrite exchange_token_run.
  cbn [remote with_stdout].
  destruct (exchange_outcome _) as [tokens|e]; [|done].
  unfold new_token_set, M.bind, M.lift, M.ret.
  destruct (py_getitem tokens "access_token"); [|done].
  destruct (py_getitem tokens "refresh_token"); [|done].
  by destruct (py_getitem tokens "expires_at").
Qed.

(** What the script does, case by case. *)
Lemma main_run tty w :
  main (tty, w) =
    match (__init__ w).1 with
    | Raise e => (Raise e, (tty, after_dotenv w))
    | Ok authenticator =>
        match authenticate authenticator (tty, after_dotenv w) with
        | (Raise e, st) => (Raise e, st)
        | (Ok tokens, (tty', w')) =>
            (Ok tt, (tty', with_stdout (stdout w' ++ [success_line]) (after_persist tokens w')))
        end
    end.
Proof.
  unfold main, M.bind at 1, M.on_world at 1.
  pose proof (authenticator_init_world w) as Hinit.
  destruct (__init__ w) as [[authenticator|e] w0];
    simpl in Hinit; injection Hinit as ->; simpl; [|done].
  unfold M.bind at 1.
  destruct (authenticate authenticator (tty, after_dotenv w)) as [[tokens|e] [tty' w']];
    [|done].
  reflexivity.
Qed.

(** X20.  A run of the script that raises - no credentials in the
    environment, nothing to read, no code in the line, the service
    unreachable or refusing, an answer without one of the three fields -
    has written no file, and has printed nothing or the instructions and
    the prompt: never the success line. *)
Theorem script_failure_writes_nothing tty w e tty' w' :
  main (tty, w) = (Raise e, (tty', w')) →
  files w' = files w
  ∧ (stdout w' = stdout w ∨ stdout w' = stdout w ++ instructions).
Proof.
  rewrite main_run.
  destruct (__init__ w).1 as [authenticator|e0]; [|intros [= <- <- <-]; by eauto].
  rewrite authenticate_run. cbn zeta. unfold after_request.
  repeat case_match; intros ?; simplify_eq/=; eauto.
Qed.

(** A successful run of the script, step by step. *)
Lemma main_Ok tty w tty' w' :
  main (tty, w) = (Ok tt, (tty', w')) →
  ∃ authenticator line code tokens t,
    (__init__ w).1 = Ok authenticator
    ∧ stdin tty = line :: stdin tty'
    ∧ code_of line = Ok code
    ∧ exchange_outcome (remote w (exchange_request authenticator (JStr code))) = Ok tokens
    ∧ new_token_set tokens = Ok t
    ∧ tty' = after_read (after_open (get_authorization_url authenticator) tty)
    ∧ w' = with_stdout (stdout w ++ instructions ++ [success_line])
             (after_persist t
                (after_request (exchange_request authenticator (JStr code))
                   (after_dotenv w))).
Proof.
  rewrite main_run.
  destruct (__init__ w).1 as [authenticator|e0]; [|done].
  rewrite authenticate_run. cbn zeta.
  destruct (stdin tty) as [|line rest] eqn:Hin; [done|].
  destruct (code_of line) as [code|] eqn:Hcode; [|done].
  destruct (exchange_outcome _) as [tokens|] eqn:Hout; [|done].
  destruct (new_token_set tokens) as [t|] eqn:Ht; [|done].
  intros [= <- <-]. exists authenticator, line, code, tokens, t.
  split; [done|]. split; [cbn [stdin after_read after_open]; by rewrite Hin|].
  split; [done|]. split; [done|]. split; [done|]. split; [done|].
  unfold after_persist, after_request, after_dotenv, with_files, with_sent, with_stdout,
    with_environ.
  cbn [files environ dotenv in_package clock remote sent stdout].
  by rewrite <- app_assoc.
Qed.

(** The token set built from an answer has exactly three entries. *)
Lemma new_token_set_dom tokens t :
  new_token_set tokens = Ok t →
  ∃ m : gmap string json,
    t = JObj m ∧ dom m = {[ "access_token"; "refresh_token"; "expires_at" ]}.
Proof.
  unfold new_token_set. intros Ht. inv_binds. injection Ht as <-.
  eexists. split; [done|]. rewrite !dom_insert_L, dom_singleton_L. set_solver.
Qed.

(** X21.  A run of the script that succeeds has opened the
    authorization page, read one line, sent one request - the exchange of
    the code found in this line, as an authorization code - and written
    to [strava_tokens.json] a dictionary of exactly the three token
    fields of the answer; the success line is the last thing printed. *)
Theorem script_success tty w tty' w' :
  main (tty, w) = (Ok tt, (tty', w')) →
  ∃ authenticator line code (m : gmap string json),
    (__init__ w).1 = Ok authenticator
    ∧ opened tty' = opened tty ++ [get_authorization_url authenticator]
    ∧ stdin tty = line :: stdin tty'
    ∧ code_of line = Ok code
    ∧ sent w' = sent w ++ [exchange_request authenticator (JStr code)]
    ∧ dom m = {[ "access_token"; "refresh_token"; "expires_at" ]}
    ∧ files w' = <["strava_tokens.json" := json_dumps (JObj m)]> (files w)
    ∧ stdout w' = stdout w ++ instructions ++ [success_line].
Proof.
  intros Hmain.
  apply main_Ok in Hmain
    as (authenticator & line & code & tokens & t & Hinit & Hin & Hcode & _ & Ht & Htty & Hw).
  subst tty' w'. apply new_token_set_dom in Ht as (m & Hm & Hdom). subst t.
  exists authenticator, line, code, m. by repeat split.
Qed.

(** X22.  The script and the dashboard agree on the credential file:
    after a successful run of the script, a fetcher constructed from the
    default file before the tokens expire holds the token set the script
    wrote, provided the [json] module reads back what it wrote; it sends
    nothing. *)
Theorem script_then_fetcher tty w tty' w' content t e :
  main (tty, w) = (Ok tt, (tty', w')) →
  files w' !! "strava_tokens.json" = Some content →
  json_loads content = Some t →
  py_getitem t "expires_at" = Ok e →
  py_float_ge (clock w) e = Ok false →
  ∃ m : gmap string json,
    content = json_dumps (JObj m)
    ∧ dom m = {[ "access_token"; "refresh_token"; "expires_at" ]}
    ∧ StravaDataFetcher.__init__ StravaDataFetcher.default_tokens_file w'
      = (Ok {| StravaDataFetcher.tokens := t |}, w').
Proof.
  intros Hmain Hfile Hload He Hge.
  apply main_Ok in Hmain as (? & ? & ? & tokens & t0 & _ & _ & _ & _ & Ht & _ & Hw).
  subst w'. apply new_token_set_dom in Ht as (m & Hm & Hdom). subst t0.
  assert (content = json_dumps (JObj m)) as ->.
  { cbn [files with_stdout after_persist with_files] in Hfile.
    rewrite lookup_insert_eq in Hfile. by injection Hfile. }
  exists m. split; [done|]. split; [done|].
  rewrite init_run. unfold StravaDataFetcher.default_tokens_file. rewrite Hfile, Hload, He.
  cbn [clock with_stdout after_persist with_files after_request with_sent
       after_dotenv with_environ].
  by rewrite Hge.
Qed.

(** X23.  When the line that is read has no [code=] in it, the script
    raises [IndexError] after it has loaded the [.env] file, opened the
    browser and printed the instructions; it sends no request and writes
    no file. *)
Theorem script_without_code tty w authenticator line rest :
  (__init__ w).1 = Ok authenticator →
  stdin tty = line :: rest →
  occurs "code=" line = false →
  main (tty, w)
  = (Raise IndexError,
     ({| stdin := rest;
         opened := opened tty ++ [get_authorization_url authenticator] |},
      with_stdout (stdout w ++ instructions) (after_dotenv w))).
Proof.
  intros Hinit Hin Hocc. rewrite main_run, Hinit, authenticate_run. cbn zeta.
  rewrite Hin, (code_of_without_code line Hocc).
  unfold after_read, after_open. simpl. by rewrite Hin.
Qed.
End MoreScript.

(** ** The further statements on examples *)

Lemma process_loop_app_witness :
  StravaDataFetcher.process_loop (H := Ref.lib) [] ([sample_bare] ++ [JObj sample_run])
  = Ok ([] ++ [default_row sample_date] ++ [sample_run_row]).
Proof.
  apply (proj2 (process_loop_app (H := Ref.lib) [sample_bare] [JObj sample_run] [] _)).
  exists [default_row sample_date], [sample_run_row].
  split; [reflexivity|]. split; vm_compute; reflexivity.
Defined.

Lemma process_activities_first_failure_witness :
  StravaDataFetcher.process_activities (H := Ref.lib) sample_fetcher
    ([sample_bare] ++ sample_malformed :: [sample_bare])
  = Raise TypeError.
Proof.
  apply (proj2 (process_activities_first_failure (H := Ref.lib) sample_fetcher _ TypeError)).
  exists [sample_bare], sample_malformed, [sample_bare].
  split; [reflexivity|]. split; [|vm_compute; reflexivity].
  constructor; [vm_compute; reflexivity|constructor].
Defined.

Lemma missing_optional_field_is_harmless_witness :
  is_Ok (StravaDataFetcher.process_activity (H := Ref.lib)
           (JObj (delete "distance" sample_run))) = true.
Proof.
  apply (missing_optional_field_is_harmless (H := Ref.lib) sample_run "distance").
  - unfold optional_fields. do 2 constructor. constructor.
  - vm_compute; reflexivity.
Defined.

Lemma float_fields_never_abort_witness :
  ∃ row, StravaDataFetcher.process_activity (H := Ref.lib) (JObj sample_floats) = Ok row
         ∧ Activity.start_date row
           = {| year := 2024; month := 3; day := 9; hour := 7; minute := 15;
                second := 0; microsecond := 0; utcoffset := Some 0%Z |}.
Proof.
  apply (float_fields_never_abort (H := Ref.lib) sample_floats "2024-03-09T07:15:00Z").
  - vm_compute; reflexivity.
  - vm_compute; reflexivity.
  - intros k Hk. unfold numeric_fields in Hk. set_unfold.
    destruct Hk as [->|[->|[->|[->|[]]]]].
    + right. exists nan. vm_compute; reflexivity.
    + left. vm_compute; reflexivity.
    + left. vm_compute; reflexivity.
    + right. eexists. vm_compute; reflexivity.
Defined.

Lemma start_date_without_Z_witness :
  str_replace "Z" "+00:00" "2024-03-09T07:15:00" = "2024-03-09T07:15:00"
  ∧ str_replace "Z" "+00:00" ("2024-03-09T07:15:00" +:+ "Z")
    = "2024-03-09T07:15:00" +:+ "+00:00".
Proof.
  apply (proj2 (start_date_without_Z "2024-03-09T07:15:00")). vm_compute; reflexivity.
Defined.

Lemma authenticator_needs_all_three_witness :
  (StravaAuthenticator.__init__ (dash_world early granting)).1 = Ok sample_auth
  ∧ (StravaAuthenticator.__init__ (dash_world early granting)).2
    = with_environ sample_environ (dash_world early granting).
Proof.
  destruct (authenticator_needs_all_three (dash_world early granting))
    as (Hworld & _ & Hauth & _).
  split.
  - apply Hauth. repeat split; first [vm_compute; reflexivity | discriminate].
  - rewrite Hworld. vm_compute; reflexivity.
Defined.

Lemma exchange_token_Ok_iff_witness :
  (StravaAuthenticator.exchange_token (H := Ref.lib) sample_auth (JStr "r1")
     (sample_world late granting)).1 = Ok fresh_tokens.
Proof.
  apply (proj2 (exchange_token_Ok_iff (H := Ref.lib) sample_auth (JStr "r1")
                  (sample_world late granting))).
  exists {| status_code := 200; text := Ref.dumps fresh_tokens |}.
  repeat split; vm_compute; reflexivity.
Defined.

Lemma refresh_failure_changes_nothing_witness :
  let run := StravaDataFetcher._refresh_token (H := Ref.lib)
               (sample_fetcher, sample_world late rejecting) in
  run.2.1 = sample_fetcher ∧ files run.2.2 = files (sample_world late rejecting).
Proof.
  intros run.
  destruct (refresh_failure_changes_nothing (H := Ref.lib) sample_fetcher
              (sample_world late rejecting)
              (Exception "Token exchange failed: Authorization Error")
              run.2.1 run.2.2) as (Hself & Hfiles & _).
  - vm_compute; reflexivity.
  - by split.
Defined.

Lemma refresh_keeps_three_fields_witness :
  ∃ m : gmap string json,
    fresh_tokens = JObj m
    ∧ dom m = {[ "access_token"; "refresh_token"; "expires_at" ]}.
Proof.
  destruct (refresh_keeps_three_fields (H := Ref.lib) sample_fetcher
              (sample_world late granting)
              {| StravaDataFetcher.tokens := fresh_tokens |}
              (after_persist (H := Ref.lib) fresh_tokens
                 (after_request
                    (StravaAuthenticator.exchange_request sample_auth (JStr "r1"))
                    (after_dotenv (sample_world late granting)))))
    as (m & _ & _ & _ & _ & Ht & Hdom & _).
  - vm_compute; reflexivity.
  - exists m. by split.
Defined.

Lemma init_footprint_witness :
  let run := StravaDataFetcher.__init__ (H := Ref.lib) "strava_tokens.json"
               (dash_world late granting) in
  run.1 = Raise ImportError
  ∧ stdout run.2 = [] ∧ sent run.2 = [] ∧ files run.2 = files (dash_world late granting).
Proof.
  intros run.
  destruct (init_footprint (H := Ref.lib) "strava_tokens.json" (dash_world late granting))
    as (Hout & _ & Hsent & Hfiles).
  split; [vm_compute; reflexivity|]. split; [exact Hout|].
  split; [vm_compute; reflexivity|].
  destruct Hfiles as [Hfiles|(t & Hok & _)]; [exact Hfiles|].
  vm_compute in Hok. discriminate Hok.
Defined.

Lemma init_rejects_untyped_expiry_witness :
  let w := with_files {[ "strava_tokens.json" := Ref.dumps string_expiry ]}
             (sample_world late granting) in
  StravaDataFetcher.__init__ (H := Ref.lib) "strava_tokens.json" w = (Raise TypeError, w).
Proof.
  intros w.
  apply (init_rejects_untyped_expiry (H := Ref.lib) "strava_tokens.json" w
           (Ref.dumps string_expiry) string_expiry).
  - vm_compute; reflexivity.
  - vm_compute; reflexivity.
  - vm_compute. exact I.
Defined.

Lemma fetch_without_access_token_witness :
  let self := {| StravaDataFetcher.tokens := no_access_token |} in
  let w := sample_world early granting in
  StravaDataFetcher.get_activities (H := Ref.lib) self (JInt 30) w
  = (Raise (KeyError "access_token"), w)
  ∧ StravaDataFetcher.get_athlete_profile (H := Ref.lib) self w
    = (Raise (KeyError "access_token"), w).
Proof.
  intros self w.
  apply (fetch_without_access_token (H := Ref.lib) self
           {[ "refresh_token" := JStr "r1"; "expires_at" := JInt 1700000000 ]}).
  - reflexivity.
  - vm_compute; reflexivity.
Defined.

Lemma get_activities_calls_requests_once_witness :
  ∃ request,
    sent (StravaDataFetcher.get_activities (H := Ref.lib) sample_fetcher (JInt 30)
            (sample_world early rejecting)).2 = [request]
    ∧ req_method request = GET
    ∧ req_params request = {[ "per_page" := JInt 30 ]}.
Proof.
  destruct (get_activities_calls_requests_once (H := Ref.lib) sample_fetcher (JInt 30)
              (sample_world early rejecting) (JStr "a1"))
    as (request & Hsent & Hmethod & _ & Hparams & _).
  - vm_compute; reflexivity.
  - exists request. split; [exact Hsent|]. by split.
Defined.

Lemma get_activities_failure_is_reported_witness :
  stdout (StravaDataFetcher.get_activities (H := Ref.lib) sample_fetcher (JInt 30)
            (sample_world early rejecting)).2
  = [] ++ [reported "activities" rejection].
Proof.
  refine (proj1 (get_activities_failure_is_reported (H := Ref.lib) sample_fetcher (JInt 30)
                   (sample_world early rejecting) sample_headers rejection _ _ _));
    vm_compute; reflexivity.
Defined.

Lemma get_activities_returns_body_witness :
  stdout (StravaDataFetcher.get_activities (H := Ref.lib) sample_fetcher (JInt 30)
            (sample_world early granting)).2
  = [] ++ [Line StravaDataFetcher.no_activities].
Proof.
  refine (proj2 (get_activities_returns_body (H := Ref.lib) sample_fetcher (JInt 30)
                   (sample_world early granting) sample_headers (JList []) _ _ _));
    vm_compute; reflexivity.
Defined.

Lemma get_athlete_profile_needs_object_witness :
  (StravaDataFetcher.get_athlete_profile (H := Ref.lib) sample_fetcher
     (sample_world early empty_lists)).1 = Raise AttributeError.
Proof.
  rewrite (get_athlete_profile_needs_object (H := Ref.lib) sample_fetcher
             (sample_world early empty_lists) sample_headers
             {| status_code := 200; text := "[]" |} (JList []));
    first [reflexivity | vm_compute; reflexivity | discriminate].
Defined.

Lemma athlete_name_is_stripped_witness :
  StravaDataFetcher.athlete_of (H := Ref.lib) jane_doe = Ok jane_profile
  ∧ space1 (N_of_ascii "J") = false.
Proof.
  assert (StravaDataFetcher.athlete_of (H := Ref.lib) jane_doe = Ok jane_profile) as Hrun
    by (vm_compute; reflexivity).
  split; [exact Hrun|].
  exact (proj1 (athlete_name_is_stripped (H := Ref.lib) jane_doe jane_profile Hrun)
           "J"%char "ane Doe" eq_refl).
Defined.

Lemma code_of_IndexError_witness :
  code_of "http://localhost/?error=access_denied" = Raise IndexError.
Proof.
  apply (proj2 (proj1 (code_of_IndexError "http://localhost/?error=access_denied"))).
  vm_compute; reflexivity.
Defined.

Lemma code_of_redirect_witness :
  code_of sample_redirect = Ok "4f1c0de9".
Proof.
  refine (proj2 (code_of_redirect "http://localhost/exchange_token?state=&" "4f1c0de9"
                   "scope=read,activity:read_all" _ _ _));
    vm_compute; reflexivity.
Defined.

Lemma script_failure_writes_nothing_witness :
  let run := Script.main (H := Ref.lib)
               ({| stdin := []; opened := [] |}, sample_world early granting) in
  files run.2.2 = files (sample_world early granting).
Proof.
  intros run.
  refine (proj1 (script_failure_writes_nothing (H := Ref.lib)
                   {| stdin := []; opened := [] |} (sample_world early granting)
                   EOFError run.2.1 run.2.2 _)).
  vm_compute; reflexivity.
Defined.

Lemma script_success_witness :
  let run := Script.main (H := Ref.lib) (sample_terminal, sample_world early granting) in
  ∃ m : gmap string json,
    dom m = {[ "access_token"; "refresh_token"; "expires_at" ]}
    ∧ files run.2.2
      = <["strava_tokens.json" := Ref.dumps (JObj m)]> (files (sample_world early granting)).
Proof.
  intros run.
  destruct (script_success (H := Ref.lib) sample_terminal (sample_world early granting)
              run.2.1 run.2.2)
    as (_ & _ & _ & m & _ & _ & _ & _ & _ & Hdom & Hfiles & _).
  - vm_compute; reflexivity.
  - exists m. by split.
Defined.

Lemma script_then_fetcher_witness :
  let run := Script.main (H := Ref.lib) (sample_terminal, sample_world early granting) in
  StravaDataFetcher.__init__ (H := Ref.lib) "strava_tokens.json" run.2.2
  = (Ok {| StravaDataFetcher.tokens := fresh_tokens |}, run.2.2).
Proof.
  intros run.
  destruct (script_then_fetcher (H := Ref.lib) sample_terminal (sample_world early granting)
              run.2.1 run.2.2 (Ref.dumps fresh_tokens) fresh_tokens (JInt 1800000000))
    as (m & _ & _ & Hinit); [vm_compute; reflexivity..|].
  exact Hinit.
Defined.

Lemma script_without_code_witness :
  (Script.main (H := Ref.lib)
     ({| stdin := ["no thanks"]; opened := [] |}, sample_world early granting)).1
  = Raise IndexError.
Proof.
  rewrite (script_without_code (H := Ref.lib) _ _ sample_auth "no thanks" []);
    first [reflexivity | vm_compute; reflexivity].
Defined.
